(** * Solar project cash-flow model (cfModel.py)

    A shallow embedding of the cash-flow engine of [cfModel.py]: the scalar
    formulas, the schedule builder, the IRR and payback derivations and the
    entry point [run_solar_model] called by the dashboard ([app.py]), and the
    inputs the dashboard hands to it.

    Modelling choices, all visible in the definitions below.
    - A Python [float] is an exact rational ([Q]); [==] is the numeric
      equality of [Q].  The sums and products of the model do not round; the
      power [**] raises OverflowError where its value is beyond the binary64
      range, as the source's does.  The properties stated on this model are
      kept to those that binary64 rounding preserves; where a sentence of the
      specification holds in exact arithmetic only, the module [Binary64]
      evaluates the source's operations on binary64 values and shows the
      difference.  NaN is outside both.
    - A Python [int] is a [Z].
    - An exception is a value of [exn]; a function that can raise returns a
      [result].  The first failing statement decides the exception, as in the
      source's statement order.
    - A row dictionary of the schedule is a record [CashFlowRow]; the pandas
      DataFrame built from the rows is the list of them, in order.
    - The module-level price DataFrame, numpy_financial's [irr] and pandas'
      [Series.round] come from outside the repository: they are parameters. *)

From Stdlib Require Import QArith Qpower Qround ZArith List String Ascii Bool.
From Stdlib Require Import Lia Lqa Floats.
From Stdlib Require Import Orders Sorted Permutation Mergesort.
Import ListNotations.

Set Warnings "-inexact-float".

Local Open Scope Q_scope.

(** ** Exceptions and results *)

Inductive exn : Type :=
| ValueError (msg : string)
| IndexError (msg : string)
| KeyError (key : string)
| OverflowError (msg : string).

Inductive result (A : Type) : Type :=
| Ok (a : A)
| Raise (e : exn).

Arguments Ok {A} a.
Arguments Raise {A} e.

Definition bind {A B : Type} (m : result A) (k : A -> result B) : result B :=
  match m with
  | Ok a => k a
  | Raise e => Raise e
  end.

Notation "x <- m ;; k" := (bind m (fun x => k))
  (at level 61, m at next level, right associativity).
Notation "' pat <- m ;; k" := (bind m (fun x => match x with pat => k end))
  (at level 61, pat pattern, m at next level, right associativity).

(** ** Comparisons of floats, as booleans *)

(** [x <= y] and [x < y] of the source. *)
Definition Qleb (x y : Q) : bool := Qle_bool x y.
Definition Qltb (x y : Q) : bool := negb (Qle_bool y x).

(** ** Configuration (cfModel.py, lines 14-19) *)

Definition PROJECT_YEARS : Z := 25%Z.
Definition CAPEX_PER_WATT : Q := 250 # 100.
Definition ITC_RATE : Q := 30 # 100.
Definition GEN_KWH_PER_KW_YEAR : Q := 1400.
Definition PRICE_ESCALATION : Q := 25 # 1000.
Definition OM_PER_KW_YEAR : Q := 15.

(** ** Price lookup (cfModel.py, lines 12-13 and 24-38) *)

(** The price DataFrame: its column names and, per CSV line, the state and
    the cost per kWh. *)
Record PriceFrame : Type := {
  pf_columns : list string;
  pf_records : list (string * Q)
}.

(** [str.lower] on ASCII letters. *)
Definition lower_ascii (c : ascii) : ascii :=
  let n := nat_of_ascii c in
  if (65 <=? n)%nat && (n <=? 90)%nat then ascii_of_nat (n + 32) else c.

Fixpoint lower (s : string) : string :=
  match s with
  | EmptyString => EmptyString
  | String c s' => String (lower_ascii c) (lower s')
  end.

(** Line 13: the state column is lower-cased once, when the module loads
    (see [import_price_frame] for a CSV without that column). *)
Definition load_price_frame (csv : PriceFrame) : PriceFrame :=
  {| pf_columns := pf_columns csv;
     pf_records := map (fun r => (lower (fst r), snd r)) (pf_records csv) |}.

Definition has_column (df : PriceFrame) (c : string) : bool :=
  existsb (String.eqb c) (pf_columns df).

(** Lines 12-13 as the module runs them on import: reading the state column
    of a CSV that has none raises KeyError, and the module does not load. *)
Definition import_price_frame (csv : PriceFrame) : result PriceFrame :=
  if has_column csv "state" then Ok (load_price_frame csv)
  else Raise (KeyError "state").

(** The cost of the first record whose state equals [key]. *)
Fixpoint first_match (key : string) (records : list (string * Q)) : option Q :=
  match records with
  | [] => None
  | (s, cost) :: rest =>
      if String.eqb s key then Some cost else first_match key rest
  end.

Definition get_electricity_price (df : PriceFrame) (state : string) : result Q :=
  if negb (has_column df "state" && has_column df "cost_per_kWh") then
    Raise (ValueError "CSV must contain 'state' and 'cost_per_kWh' columns")
  else
    let state_clean := lower state in
    match first_match state_clean (pf_records df) with
    | None => Raise (ValueError ("State '" ++ state ++ "' not found in price table"))
    | Some cost => Ok cost
    end.

(** ** Core calculations (cfModel.py, lines 42-85) *)

Definition calc_upfront_capex (system_size_kw capex_per_watt : Q) : result Q :=
  if Qleb capex_per_watt 0 then
    Raise (ValueError "capex_per_watt must be > 0.")
  else
    let watts := system_size_kw * 1000 in
    Ok (capex_per_watt * watts).

Definition calc_itc_value (capex itc_rate : Q) : result Q :=
  if Qltb capex 0 then
    Raise (ValueError "capex must be >= 0.")
  else if negb (Qleb 0 itc_rate && Qleb itc_rate 1) then
    Raise (ValueError "itc_rate must be between 0 and 1.")
  else
    Ok (capex * itc_rate).

Definition calc_annual_generation_kwh
    (system_size_kw gen_kwh_per_kw_year : Q) : result Q :=
  if Qleb gen_kwh_per_kw_year 0 then
    Raise (ValueError "gen_kwh_per_kw_year must be > 0.")
  else
    Ok (system_size_kw * gen_kwh_per_kw_year).

(** The least real that rounds to infinity in binary64: halfway between the
    largest float, [2^1024 - 2^971], and [2^1024]. *)
Definition FLOAT_OVERFLOW : Q := 2 ^ 1024 - 2 ^ 970.

(** [x ** n] for a float [x] and an int [n >= 0]: OverflowError when the
    power is out of the binary64 range, with the C library's text for ERANGE
    as CPython on Linux reports it. *)
Definition float_pow (x : Q) (n : Z) : result Q :=
  if Qleb FLOAT_OVERFLOW (x ^ n) then
    Raise (OverflowError "(34, 'Numerical result out of range')")
  else
    Ok (x ^ n).

Definition electricity_price_for_year
    (base_price : Q) (year : Z) (escalation : Q) : result Q :=
  if Qleb base_price 0 then
    Raise (ValueError "base_price must be > 0.")
  else if (year <? 1)%Z then
    Raise (ValueError "year must be >= 1 for price escalation calculation.")
  else if Qltb escalation 0 then
    Raise (ValueError "escalation must be >= 0.")
  else
    factor <- float_pow (1 + escalation) (year - 1) ;;
    Ok (base_price * factor).

Definition annual_om_cost (system_size_kw om_per_kw_year : Q) : result Q :=
  if Qltb om_per_kw_year 0 then
    Raise (ValueError "om_per_kw_year must be >= 0.")
  else
    Ok (system_size_kw * om_per_kw_year).

(** ** Cash-flow schedule (cfModel.py, lines 90-151) *)

(** One row dictionary of the schedule; [price_per_kwh] is [None] in year 0. *)
Record CashFlowRow : Type := {
  year : Z;
  price_per_kwh : option Q;
  generation_kwh : Q;
  om_cost : Q;
  net_cashflow : Q;
  cumulative_cashflow : Q
}.

Definition DataFrame : Type := list CashFlowRow.

(** The variables the loop of lines 134-148 updates. *)
Record LoopState : Type := {
  rows : list CashFlowRow;
  cashflows : list Q;
  cumulative : Q
}.

(** [range(lo, hi)]. *)
Definition range (lo hi : Z) : list Z :=
  map (fun i => (lo + Z.of_nat i)%Z) (seq 0 (Z.to_nat (hi - lo))).

(** A [for] loop whose body can raise. *)
Fixpoint for_each {S : Type} (body : S -> Z -> result S) (l : list Z) (st : S)
    : result S :=
  match l with
  | [] => Ok st
  | y :: l' => st' <- body st y ;; for_each body l' st'
  end.

(** The body of the loop over years 1, 2, ... (lines 135-148). *)
Definition year_body (base_price_per_kwh escalation annual_gen om : Q)
    (st : LoopState) (yr : Z) : result LoopState :=
  price <- electricity_price_for_year base_price_per_kwh yr escalation ;;
  let gross_savings := annual_gen * price in
  let net_cf := gross_savings - om in
  let cumulative' := cumulative st + net_cf in
  Ok {| rows := rows st ++
                [ {| year := yr;
                     price_per_kwh := Some price;
                     generation_kwh := annual_gen;
                     om_cost := om;
                     net_cashflow := net_cf;
                     cumulative_cashflow := cumulative' |} ];
        cashflows := cashflows st ++ [net_cf];
        cumulative := cumulative' |}.

Definition build_cashflow_schedule
    (system_size_kw base_price_per_kwh : Q) (years : Z)
    (capex_per_watt itc_rate gen_kwh_per_kw_year escalation om_per_kw_year : Q)
    : result (DataFrame * list Q) :=
  if (years <=? 0)%Z then Raise (ValueError "years must be > 0.")
  else if Qleb base_price_per_kwh 0 then
    Raise (ValueError "base_price_per_kwh must be > 0.")
  else
    capex <- calc_upfront_capex system_size_kw capex_per_watt ;;
    itc <- calc_itc_value capex itc_rate ;;
    annual_gen <- calc_annual_generation_kwh system_size_kw gen_kwh_per_kw_year ;;
    om <- annual_om_cost system_size_kw om_per_kw_year ;;
    let cumulative0 := 0 in
    (* Year 0 *)
    let cf0 := - capex + itc in
    let cumulative1 := cumulative0 + cf0 in
    let st0 :=
      {| rows := [ {| year := 0;
                      price_per_kwh := None;
                      generation_kwh := 0;
                      om_cost := 0;
                      net_cashflow := cf0;
                      cumulative_cashflow := cumulative1 |} ];
         cashflows := [cf0];
         cumulative := cumulative1 |} in
    (* Years 1+ *)
    st <- for_each (year_body base_price_per_kwh escalation annual_gen om)
                   (range 1 (years + 1)) st0 ;;
    Ok (rows st, cashflows st).

(** The call of line 213: every assumption at its default. *)
Definition build_default (system_size_kw base_price_per_kwh : Q) (years : Z)
    : result (DataFrame * list Q) :=
  build_cashflow_schedule system_size_kw base_price_per_kwh years
    CAPEX_PER_WATT ITC_RATE GEN_KWH_PER_KW_YEAR PRICE_ESCALATION OM_PER_KW_YEAR.

(** ** Metrics (cfModel.py, lines 154-191) *)

(** What [npf.irr] can hand back: a float, NaN, or an object that [float()]
    refuses. *)
Inductive np_value : Type :=
| np_float (x : Q)
| np_nan
| np_other.

(** Lines 180-191.  [cum[0]] raises on a table without rows. *)
Fixpoint first_non_negative (table : list CashFlowRow) : option Z :=
  match table with
  | [] => None
  | r :: rest =>
      if Qleb 0 (cumulative_cashflow r) then Some (year r)
      else first_non_negative rest
  end.

Definition calc_payback_period_years (cashflow_table : DataFrame)
    : result (option Z) :=
  match cashflow_table with
  | [] => Raise (IndexError "list index out of range")
  | r0 :: rest =>
      if Qleb 0 (cumulative_cashflow r0) then Ok (Some (year r0))
      else Ok (first_non_negative rest)
  end.

(** What [run_solar_model] returns (lines 228-234). *)
Record ModelResult : Type := {
  cashflow_table : DataFrame;
  upfront_cost : Q;
  annual_generation_kwh : Q;
  irr : option Q;
  payback_years : option Z
}.

Section Model.

(** numpy_financial's solver, taken to hand back a value on every series. *)
Variable npf_irr : list Q -> np_value.

(** pandas' [Series.round(decimals)], on one value. *)
Variable series_round : Z -> Q -> Q.

Definition calc_project_irr (cashflows : list Q) : option Q :=
  if (match cashflows with [] => true | _ => false end)
     || (List.length cashflows <? 2)%nat
  then None
  else
    match npf_irr cashflows with
    | np_other => None          (* float(irr) raises *)
    | np_nan => None            (* irr != irr *)
    | np_float x => Some x
    end.

(** Lines 222-226: the copy of the table with three columns rounded. *)
Definition display_row (r : CashFlowRow) : CashFlowRow :=
  {| year := year r;
     price_per_kwh := option_map (series_round 4) (price_per_kwh r);
     generation_kwh := generation_kwh r;
     om_cost := om_cost r;
     net_cashflow := series_round 2 (net_cashflow r);
     cumulative_cashflow := series_round 2 (cumulative_cashflow r) |}.

Definition run_solar_model (prices : PriceFrame)
    (state : string) (system_size_kw : Q) (years : Z) : result ModelResult :=
  base_price <- get_electricity_price prices state ;;
  upfront <- calc_upfront_capex system_size_kw CAPEX_PER_WATT ;;
  annual_gen <- calc_annual_generation_kwh system_size_kw GEN_KWH_PER_KW_YEAR ;;
  '(table, cashflows) <- build_default system_size_kw base_price years ;;
  let irr := calc_project_irr cashflows in
  payback <- calc_payback_period_years table ;;
  let display_table := map display_row table in
  Ok {| cashflow_table := display_table;
        upfront_cost := upfront;
        annual_generation_kwh := annual_gen;
        irr := irr;
        payback_years := payback |}.

End Model.

(** ** Instances of the parameters, for running the model *)

(** Round half to even, the rule of [numpy.around]. *)
Definition round_half_even (x : Q) : Z :=
  let f := Qfloor x in
  let d := x - inject_Z f in
  if Qltb d (1 # 2) then f
  else if Qltb (1 # 2) d then (f + 1)%Z
  else if Z.even f then f else (f + 1)%Z.

Definition np_round (decimals : Z) (x : Q) : Q :=
  Qred (inject_Z (round_half_even (x * 10 ^ decimals)) / 10 ^ decimals).

(** A solver that finds no rate. *)
Definition no_rate : list Q -> np_value := fun _ => np_nan.

(** A price table with two states. *)
Definition sample_prices : PriceFrame :=
  load_price_frame
    {| pf_columns := ["state"; "cost_per_kWh"]%string;
       pf_records := [("California"%string, 20 # 100);
                      ("Texas"%string, 12 # 100)] |}.

(** A price for which the cumulative cash flow of year 1 is -0.001. *)
Definition near_miss_prices : PriceFrame :=
  load_price_frame
    {| pf_columns := ["state"; "cost_per_kWh"]%string;
       pf_records := [("Nevada"%string, 1764999 # 1400000)] |}.

(** The schedule of a 10 kW system at 0.20 $/kWh over 8 years. *)
Definition sample_schedule : DataFrame :=
  match build_default 10 (20 # 100) 8 with
  | Ok (table, _) => table
  | Raise _ => []
  end.

(** ** The arithmetic of the first two rows, on binary64 values *)

(** The arithmetic of lines 47-48, 57, 64, 85, 121-122 and 135-138 on IEEE 754
    binary64 values, the floats of the source, for the rows of years 0 and 1.
    In year 1 the factor [(1.0 + escalation) ** 0] is 1.0.  It serves to compare
    the exact model with the source's arithmetic on the worked example. *)
Module Binary64.

Local Open Scope float_scope.

Record FirstRows : Type := {
  capex : float;
  itc : float;
  net_cashflow_0 : float;
  cumulative_0 : float;
  generation_kwh_1 : float;
  price_per_kwh_1 : float;
  gross_savings_1 : float;
  om_cost_1 : float;
  net_cashflow_1 : float;
  cumulative_1 : float
}.

Definition first_rows
    (system_size_kw base_price_per_kwh : float)
    (capex_per_watt itc_rate gen_kwh_per_kw_year om_per_kw_year : float)
    : FirstRows :=
  let watts := system_size_kw * 1000 in
  let capex := capex_per_watt * watts in
  let itc := capex * itc_rate in
  let annual_gen := system_size_kw * gen_kwh_per_kw_year in
  let om := system_size_kw * om_per_kw_year in
  let cumulative0 := 0 in
  let cf0 := - capex + itc in
  let cumulative1 := cumulative0 + cf0 in
  let price := base_price_per_kwh * 1 in
  let gross_savings := annual_gen * price in
  let net_cf := gross_savings - om in
  let cumulative2 := cumulative1 + net_cf in
  {| capex := capex;
     itc := itc;
     net_cashflow_0 := cf0;
     cumulative_0 := cumulative1;
     generation_kwh_1 := annual_gen;
     price_per_kwh_1 := price;
     gross_savings_1 := gross_savings;
     om_cost_1 := om;
     net_cashflow_1 := net_cf;
     cumulative_1 := cumulative2 |}.

(** The functions of lines 42-151 on binary64 values, with the source's own
    operations and comparisons.  The power [x ** n] is given where CPython's
    [float_pow] fixes the value itself: any float to the power 0 is 1.0, and
    1.0 to any power is 1.0.  Every other power is libm's and is left open:
    a function that needs one has no value here ([None]). *)
Definition float_pow (x : float) (n : Z) : option float :=
  if (n =? 0)%Z then Some 1
  else if x =? 1 then Some 1
  else None.

Definition calc_upfront_capex (system_size_kw capex_per_watt : float)
    : result float :=
  if capex_per_watt <=? 0 then
    Raise (ValueError "capex_per_watt must be > 0.")
  else
    let watts := system_size_kw * 1000 in
    Ok (capex_per_watt * watts).

Definition calc_itc_value (capex itc_rate : float) : result float :=
  if capex <? 0 then
    Raise (ValueError "capex must be >= 0.")
  else if negb ((0 <=? itc_rate) && (itc_rate <=? 1)) then
    Raise (ValueError "itc_rate must be between 0 and 1.")
  else
    Ok (capex * itc_rate).

Definition calc_annual_generation_kwh
    (system_size_kw gen_kwh_per_kw_year : float) : result float :=
  if gen_kwh_per_kw_year <=? 0 then
    Raise (ValueError "gen_kwh_per_kw_year must be > 0.")
  else
    Ok (system_size_kw * gen_kwh_per_kw_year).

Definition electricity_price_for_year
    (base_price : float) (year : Z) (escalation : float)
    : option (result float) :=
  if base_price <=? 0 then
    Some (Raise (ValueError "base_price must be > 0."))
  else if (year <? 1)%Z then
    Some (Raise (ValueError "year must be >= 1 for price escalation calculation."))
  else if escalation <? 0 then
    Some (Raise (ValueError "escalation must be >= 0."))
  else
    match float_pow (1 + escalation) (year - 1) with
    | Some factor => Some (Ok (base_price * factor))
    | None => None
    end.

Definition annual_om_cost (system_size_kw om_per_kw_year : float)
    : result float :=
  if om_per_kw_year <? 0 then
    Raise (ValueError "om_per_kw_year must be >= 0.")
  else
    Ok (system_size_kw * om_per_kw_year).

Record Row : Type := {
  year : Z;
  price_per_kwh : option float;
  generation_kwh : float;
  om_cost : float;
  net_cashflow : float;
  cumulative_cashflow : float
}.

Record Loop : Type := {
  rows : list Row;
  cashflows : list float;
  cumulative : float
}.

Definition year_body (base_price_per_kwh escalation annual_gen om : float)
    (st : Loop) (yr : Z) : option (result Loop) :=
  match electricity_price_for_year base_price_per_kwh yr escalation with
  | None => None
  | Some (Raise e) => Some (Raise e)
  | Some (Ok price) =>
      let gross_savings := annual_gen * price in
      let net_cf := gross_savings - om in
      let cumulative' := cumulative st + net_cf in
      Some (Ok {| rows := rows st ++
                          [ {| year := yr;
                               price_per_kwh := Some price;
                               generation_kwh := annual_gen;
                               om_cost := om;
                               net_cashflow := net_cf;
                               cumulative_cashflow := cumulative' |} ];
                  cashflows := cashflows st ++ [net_cf];
                  cumulative := cumulative' |})
  end.

Fixpoint for_each_year (body : Loop -> Z -> option (result Loop))
    (l : list Z) (st : Loop) : option (result Loop) :=
  match l with
  | [] => Some (Ok st)
  | y :: l' =>
      match body st y with
      | Some (Ok st') => for_each_year body l' st'
      | stopped => stopped
      end
  end.

Definition build_cashflow_schedule
    (system_size_kw base_price_per_kwh : float) (years : Z)
    (capex_per_watt itc_rate gen_kwh_per_kw_year escalation om_per_kw_year : float)
    : option (result (list Row * list float)) :=
  if (years <=? 0)%Z then Some (Raise (ValueError "years must be > 0."))
  else if base_price_per_kwh <=? 0 then
    Some (Raise (ValueError "base_price_per_kwh must be > 0."))
  else
    match calc_upfront_capex system_size_kw capex_per_watt with
    | Raise e => Some (Raise e)
    | Ok capex =>
    match calc_itc_value capex itc_rate with
    | Raise e => Some (Raise e)
    | Ok itc =>
    match calc_annual_generation_kwh system_size_kw gen_kwh_per_kw_year with
    | Raise e => Some (Raise e)
    | Ok annual_gen =>
    match annual_om_cost system_size_kw om_per_kw_year with
    | Raise e => Some (Raise e)
    | Ok om =>
        let cumulative0 := 0 in
        let cf0 := - capex + itc in
        let cumulative1 := cumulative0 + cf0 in
        let st0 :=
          {| rows := [ {| year := 0%Z;
                          price_per_kwh := None;
                          generation_kwh := 0;
                          om_cost := 0;
                          net_cashflow := cf0;
                          cumulative_cashflow := cumulative1 |} ];
             cashflows := [cf0];
             cumulative := cumulative1 |} in
        match for_each_year
                (year_body base_price_per_kwh escalation annual_gen om)
                (range 1 (years + 1)) st0 with
        | None => None
        | Some (Raise e) => Some (Raise e)
        | Some (Ok st) => Some (Ok (rows st, cashflows st))
        end
    end end end end.

(** Lines 180-191 on binary64 rows. *)
Fixpoint first_non_negative (table : list Row) : option Z :=
  match table with
  | [] => None
  | r :: rest =>
      if 0 <=? cumulative_cashflow r then Some (year r)
      else first_non_negative rest
  end.

End Binary64.

(** ** The schedule under construction *)

(** What holds of the loop variables after [i] iterations: [i + 1] rows, whose
    net cash flows are the series collected for the IRR, labelled by their
    position, the last row carrying the running total, and every row but the
    first adding its net cash flow to the total of the row before. *)
Definition schedule_inv (i : nat) (s : LoopState) : Prop :=
  List.length (rows s) = S i /\
  map net_cashflow (rows s) = cashflows s /\
  (forall j r, nth_error (rows s) j = Some r -> year r = Z.of_nat j) /\
  (exists last, nth_error (rows s) i = Some last /\
                cumulative_cashflow last = cumulative s) /\
  (forall t rp r,
      nth_error (rows s) t = Some rp -> nth_error (rows s) (S t) = Some r ->
      cumulative_cashflow r = cumulative_cashflow rp + net_cashflow r).

(** ** Bounds on powers *)

(** Upper and lower bounds of a power by squaring, rounded outwards to 128
    binary places at every step, so that a power with a large exponent is
    compared with [FLOAT_OVERFLOW] on short numbers. *)
Definition SCALE : Q := 2 ^ 128.

Definition round_up (q : Q) : Q := inject_Z (Qceiling (q * SCALE)) / SCALE.
Definition round_down (q : Q) : Q := inject_Z (Qfloor (q * SCALE)) / SCALE.

Fixpoint pow_up (x : Q) (n : positive) : Q :=
  match n with
  | xH => x
  | xO p => let y := pow_up x p in round_up (y * y)
  | xI p => let y := pow_up x p in round_up (x * (y * y))
  end.

Fixpoint pow_down (x : Q) (n : positive) : Q :=
  match n with
  | xH => x
  | xO p => let y := pow_down x p in round_down (y * y)
  | xI p => let y := pow_down x p in round_down (x * (y * y))
  end.

(** The loop variables before the loop (lines 115-131), given the capex and
    the tax credit. *)
Definition year0_state (capex itc : Q) : LoopState :=
  let cf0 := - capex + itc in
  {| rows := [ {| year := 0;
                  price_per_kwh := None;
                  generation_kwh := 0;
                  om_cost := 0;
                  net_cashflow := cf0;
                  cumulative_cashflow := 0 + cf0 |} ];
     cashflows := [cf0];
     cumulative := 0 + cf0 |}.

(** ** The dashboard's inputs (app.py, lines 12-32) *)

(** The order of [sorted] on strings: character by character, by code. *)
Module StringOrder <: TotalLeBool.
Definition t : Type := string.
Definition leb (x y : string) : bool := String.leb x y.
Theorem leb_total (x y : string) : leb x y = true \/ leb y x = true.
Proof. apply String.leb_total. Qed.
End StringOrder.

(** [sorted]: a stable merge sort. *)
Module StringSort := Sort StringOrder.

(** [Series.unique()]: the values in the order of their first appearance. *)
Fixpoint unique (l : list string) : list string :=
  match l with
  | [] => []
  | x :: rest => x :: filter (fun y => negb (String.eqb x y)) (unique rest)
  end.

(** Lines 13-19, on the CSV as read (the state names keep their case). *)
Definition load_states (csv : PriceFrame) : result (list string) :=
  if negb (has_column csv "state") then
    Raise (ValueError "energy_prices.csv must include a 'state' column")
  else
    Ok (StringSort.sort (unique (map fst (pf_records csv)))).

(** The bounds of the size input (line 26) and of the horizon slider
    (line 28). *)
Definition SIZE_MIN_VALUE : Q := 0.1.
Definition SIZE_MAX_VALUE : Q := 1000.
Definition YEARS_MIN_VALUE : Z := 5%Z.
Definition YEARS_MAX_VALUE : Z := PROJECT_YEARS.

(** What the three widgets can hand to [run_solar_model] (line 32): a state
    of the dropdown, a size and a horizon within the widgets' bounds. *)
Definition widget_values (states : list string)
    (state : string) (system_size_kw : Q) (years : Z) : bool :=
  existsb (String.eqb state) states
  && Qleb SIZE_MIN_VALUE system_size_kw && Qleb system_size_kw SIZE_MAX_VALUE
  && (YEARS_MIN_VALUE <=? years)%Z && (years <=? YEARS_MAX_VALUE)%Z.

(** * Properties *)

(** ** Comparisons *)

Lemma Qleb_true (x y : Q) : Qleb x y = true <-> x <= y.
Proof. apply Qle_bool_iff. Qed.

Lemma Qleb_false (x y : Q) : Qleb x y = false <-> y < x.
Proof.
  unfold Qleb. rewrite <- not_true_iff_false, Qle_bool_iff.
  split; [apply Qnot_le_lt | apply Qlt_not_le].
Qed.

Lemma Qltb_true (x y : Q) : Qltb x y = true <-> x < y.
Proof. unfold Qltb. rewrite negb_true_iff. apply (Qleb_false y x). Qed.

Lemma Qltb_false (x y : Q) : Qltb x y = false <-> y <= x.
Proof. unfold Qltb. rewrite negb_false_iff. apply Qle_bool_iff. Qed.

(** Turns the boolean tests found in the hypotheses into order facts. *)
Ltac order_facts :=
  repeat match goal with
  | H : Qleb _ _ = true |- _ => apply Qleb_true in H
  | H : Qleb _ _ = false |- _ => apply Qleb_false in H
  | H : Qltb _ _ = true |- _ => apply Qltb_true in H
  | H : Qltb _ _ = false |- _ => apply Qltb_false in H
  | H : (_ <=? _)%Z = true |- _ => apply Z.leb_le in H
  | H : (_ <=? _)%Z = false |- _ => apply Z.leb_gt in H
  | H : (_ <? _)%Z = true |- _ => apply Z.ltb_lt in H
  | H : (_ <? _)%Z = false |- _ => apply Z.ltb_ge in H
  end.

(** ** The scalar formulas on valid arguments *)

Lemma calc_upfront_capex_ok (size cpw : Q) :
  0 < cpw -> calc_upfront_capex size cpw = Ok (cpw * (size * 1000)).
Proof.
  intros H. unfold calc_upfront_capex.
  destruct (Qleb cpw 0) eqn:E; [order_facts; lra | reflexivity].
Qed.

Lemma calc_itc_value_ok (capex rate : Q) :
  0 <= capex -> 0 <= rate <= 1 -> calc_itc_value capex rate = Ok (capex * rate).
Proof.
  intros Hc [H0 H1]. unfold calc_itc_value.
  destruct (Qltb capex 0) eqn:E; [order_facts; lra |].
  apply Qleb_true in H0, H1. rewrite H0, H1. reflexivity.
Qed.

Lemma calc_annual_generation_kwh_ok (size gen : Q) :
  0 < gen -> calc_annual_generation_kwh size gen = Ok (size * gen).
Proof.
  intros H. unfold calc_annual_generation_kwh.
  destruct (Qleb gen 0) eqn:E; [order_facts; lra | reflexivity].
Qed.

Lemma annual_om_cost_ok (size om : Q) :
  0 <= om -> annual_om_cost size om = Ok (size * om).
Proof.
  intros H. unfold annual_om_cost.
  destruct (Qltb om 0) eqn:E; [order_facts; lra | reflexivity].
Qed.

Lemma float_pow_ok (x : Q) (n : Z) :
  x ^ n < FLOAT_OVERFLOW -> float_pow x n = Ok (x ^ n).
Proof.
  intros H. unfold float_pow.
  destruct (Qleb FLOAT_OVERFLOW (x ^ n)) eqn:E; [| reflexivity].
  apply Qleb_true in E. exfalso. apply (Qlt_not_le _ _ H E).
Qed.

Lemma float_pow_overflow (x : Q) (n : Z) :
  FLOAT_OVERFLOW <= x ^ n ->
  float_pow x n = Raise (OverflowError "(34, 'Numerical result out of range')").
Proof.
  intros H. unfold float_pow. apply Qleb_true in H. now rewrite H.
Qed.

Lemma float_pow_inv (x : Q) (n : Z) (v : Q) :
  float_pow x n = Ok v -> v = x ^ n /\ x ^ n < FLOAT_OVERFLOW.
Proof.
  unfold float_pow.
  destruct (Qleb FLOAT_OVERFLOW (x ^ n)) eqn:E; [discriminate |].
  intros [= <-]. apply Qleb_false in E. now split.
Qed.

Lemma electricity_price_for_year_ok (p : Q) (y : Z) (e : Q) :
  0 < p -> (1 <= y)%Z -> 0 <= e -> (1 + e) ^ (y - 1) < FLOAT_OVERFLOW ->
  electricity_price_for_year p y e = Ok (p * (1 + e) ^ (y - 1)).
Proof.
  intros Hp Hy He Hfit. unfold electricity_price_for_year.
  destruct (Qleb p 0) eqn:E1; [order_facts; lra |].
  destruct (y <? 1)%Z eqn:E2; [order_facts; lia |].
  destruct (Qltb e 0) eqn:E3; [order_facts; lra |].
  rewrite float_pow_ok by exact Hfit. reflexivity.
Qed.

(** A price comes back only for a year from 1 on. *)
Lemma electricity_price_for_year_inv (p : Q) (y : Z) (e v : Q) :
  electricity_price_for_year p y e = Ok v ->
  0 < p /\ (1 <= y)%Z /\ 0 <= e /\ v = p * (1 + e) ^ (y - 1).
Proof.
  unfold electricity_price_for_year.
  destruct (Qleb p 0) eqn:E1; [discriminate |].
  destruct (y <? 1)%Z eqn:E2; [discriminate |].
  destruct (Qltb e 0) eqn:E3; [discriminate |].
  destruct (float_pow (1 + e) (y - 1)) as [f |] eqn:Ef; cbn [bind];
    [| discriminate].
  intros [= <-]. apply float_pow_inv in Ef as [-> _].
  order_facts. repeat split; auto.
Qed.

(** A returned price tells that the escalation factor was in range. *)
Lemma electricity_price_for_year_fits (p : Q) (y : Z) (e v : Q) :
  electricity_price_for_year p y e = Ok v ->
  (1 + e) ^ (y - 1) < FLOAT_OVERFLOW.
Proof.
  unfold electricity_price_for_year.
  destruct (Qleb p 0); [discriminate |].
  destruct (y <? 1)%Z; [discriminate |].
  destruct (Qltb e 0); [discriminate |].
  destruct (float_pow (1 + e) (y - 1)) as [f |] eqn:Ef; cbn [bind];
    [| discriminate].
  intros _. now apply float_pow_inv in Ef.
Qed.

(** The escalation factor grows with the year. *)
Lemma escalation_factor_mono (e : Q) (y1 y2 : Z) :
  0 <= e -> (y1 <= y2)%Z -> (1 + e) ^ (y1 - 1) <= (1 + e) ^ (y2 - 1).
Proof.
  intros He Hy. apply Qpower_le_compat_l; [lia | lra].
Qed.

(** ** Loops *)

Lemma range_length (lo hi : Z) : List.length (range lo hi) = Z.to_nat (hi - lo).
Proof. unfold range. now rewrite length_map, length_seq. Qed.

Lemma range_nth (lo hi : Z) (i : nat) (y : Z) :
  nth_error (range lo hi) i = Some y -> y = (lo + Z.of_nat i)%Z.
Proof.
  unfold range. intros H.
  rewrite nth_error_map in H.
  destruct (nth_error (seq 0 (Z.to_nat (hi - lo))) i) as [k|] eqn:E;
    [| discriminate].
  injection H as <-.
  assert (Hi : (i < List.length (seq 0 (Z.to_nat (hi - lo))))%nat)
    by (apply nth_error_Some; congruence).
  rewrite length_seq in Hi.
  rewrite nth_error_nth' with (d := 0%nat) in E by (now rewrite length_seq).
  rewrite seq_nth in E by exact Hi. injection E as <-. reflexivity.
Qed.

Lemma range_In (lo hi y : Z) : In y (range lo hi) -> (lo <= y < hi)%Z.
Proof.
  intros Hin. apply In_nth_error in Hin as [i Hi].
  assert (Hlt : (i < List.length (range lo hi))%nat)
    by (apply nth_error_Some; congruence).
  rewrite range_length in Hlt. apply range_nth in Hi. lia.
Qed.

(** The loop rule: an invariant indexed by the number of iterations done,
    established before the loop and kept by every iteration that returns, holds
    when the loop returns. *)
Lemma for_each_invariant {S : Type} (body : S -> Z -> result S)
    (I : nat -> S -> Prop) (l : list Z) :
  forall (st st' : S),
  (forall i y s s1, nth_error l i = Some y -> I i s -> body s y = Ok s1 ->
                    I (Datatypes.S i) s1) ->
  I 0%nat st ->
  for_each body l st = Ok st' ->
  I (List.length l) st'.
Proof.
  revert I. induction l as [| y l IH]; intros I st st' Hstep H0 Hrun.
  - simpl in Hrun. injection Hrun as <-. exact H0.
  - simpl in Hrun. destruct (body st y) as [s1 | e] eqn:Hb; [| discriminate].
    simpl in Hrun.
    apply (IH (fun i s => I (Datatypes.S i) s) s1 st').
    + intros i z s s2 Hz Hi Hs. apply (Hstep (Datatypes.S i) z s s2); assumption.
    + apply (Hstep 0%nat y st s1); [reflexivity | assumption | assumption].
    + exact Hrun.
Qed.

(** The loop returns when every iteration does. *)
Lemma for_each_returns {S : Type} (body : S -> Z -> result S) (l : list Z) :
  (forall y s, In y l -> exists s1, body s y = Ok s1) ->
  forall st, exists st', for_each body l st = Ok st'.
Proof.
  induction l as [| y l IH]; intros Hbody st.
  - now exists st.
  - destruct (Hbody y st (or_introl eq_refl)) as [s1 Hs1].
    destruct (IH (fun z s Hz => Hbody z s (or_intror Hz)) s1) as [st' Hst'].
    exists st'. simpl. rewrite Hs1. exact Hst'.
Qed.

(** ** The loop body *)

Lemma year_body_inv (p e g om : Q) (s s1 : LoopState) (yr : Z) :
  year_body p e g om s yr = Ok s1 ->
  exists price,
    electricity_price_for_year p yr e = Ok price /\
    s1 = {| rows := rows s ++
                    [ {| year := yr;
                         price_per_kwh := Some price;
                         generation_kwh := g;
                         om_cost := om;
                         net_cashflow := g * price - om;
                         cumulative_cashflow := cumulative s + (g * price - om) |} ];
            cashflows := cashflows s ++ [g * price - om];
            cumulative := cumulative s + (g * price - om) |}.
Proof.
  unfold year_body. destruct (electricity_price_for_year p yr e) as [price|];
    simpl; [| discriminate].
  intros [= <-]. now exists price.
Qed.

Lemma year_body_keeps (p e g om : Q) (i : nat) (s s1 : LoopState) (yr : Z) :
  yr = Z.of_nat (S i) ->
  schedule_inv i s ->
  year_body p e g om s yr = Ok s1 ->
  schedule_inv (S i) s1.
Proof.
  intros Hyr (Hlen & Hcf & Hyear & (last & Hlast & Hcum) & Hstep) Hbody.
  apply year_body_inv in Hbody as (price & _ & ->).
  unfold schedule_inv; cbn [rows cashflows cumulative].
  refine (conj _ (conj _ (conj _ (conj _ _)))).
  - rewrite length_app, Hlen. simpl. lia.
  - rewrite map_app, Hcf. reflexivity.
  - intros j r Hj.
    destruct (Nat.lt_ge_cases j (List.length (rows s))) as [Hlt | Hge].
    + rewrite nth_error_app1 in Hj by exact Hlt. now apply Hyear.
    + rewrite nth_error_app2 in Hj by exact Hge.
      destruct (j - List.length (rows s))%nat as [| k] eqn:Ek; simpl in Hj.
      * injection Hj as <-. simpl. rewrite Hyr. f_equal. lia.
      * destruct k; discriminate.
  - eexists. split.
    + rewrite nth_error_app2 by lia. rewrite Hlen, Nat.sub_diag. reflexivity.
    + reflexivity.
  - intros t rp r Ht HSt.
    destruct (Nat.lt_ge_cases (S t) (List.length (rows s))) as [Hlt | Hge].
    + rewrite nth_error_app1 in Ht by lia.
      rewrite nth_error_app1 in HSt by exact Hlt.
      now apply (Hstep t).
    + assert (HSt' := HSt).
      rewrite nth_error_app2 in HSt' by exact Hge.
      destruct (S t - List.length (rows s))%nat as [| k] eqn:Ek; simpl in HSt'.
      * injection HSt' as <-. simpl.
        assert (t = i) by lia. subst t.
        rewrite nth_error_app1 in Ht by lia.
        rewrite Hlast in Ht. injection Ht as <-. now rewrite Hcum.
      * destruct k; discriminate.
Qed.

(** The schedule builder, taken apart: what a returned schedule tells about
    the arguments and about the rows. *)
Lemma build_cashflow_schedule_inv
    (size price : Q) (years : Z) (cpw itc gen esc om : Q)
    (table : DataFrame) (series : list Q) :
  build_cashflow_schedule size price years cpw itc gen esc om = Ok (table, series) ->
  (0 < years)%Z /\ 0 < price /\
  exists st r0,
    table = rows st /\ series = cashflows st /\
    schedule_inv (Z.to_nat years) st /\
    hd_error table = Some r0 /\
    year r0 = 0%Z /\ price_per_kwh r0 = None /\
    net_cashflow r0 = - (cpw * (size * 1000)) + cpw * (size * 1000) * itc /\
    cumulative_cashflow r0 = 0 + net_cashflow r0.
Proof.
  unfold build_cashflow_schedule.
  destruct (years <=? 0)%Z eqn:Ey; [discriminate |].
  destruct (Qleb price 0) eqn:Ep; [discriminate |].
  unfold calc_upfront_capex. destruct (Qleb cpw 0); [discriminate |]. simpl.
  unfold calc_itc_value. destruct (Qltb _ 0); [discriminate |].
  destruct (negb _); [discriminate |]. simpl.
  unfold calc_annual_generation_kwh. destruct (Qleb gen 0); [discriminate |]. simpl.
  unfold annual_om_cost. destruct (Qltb om 0); [discriminate |]. simpl.
  match goal with
  | |- context [for_each ?b ?l ?s0] =>
      destruct (for_each b l s0) as [st | ex] eqn:Hloop; simpl; [| discriminate];
      set (st0 := s0) in *
  end.
  intros [= <- <-]. order_facts. split; [lia |]. split; [exact Ep |].
  assert (Hinv : schedule_inv (Z.to_nat years) st /\ hd_error (rows st) = hd_error (rows st0)).
  { replace (Z.to_nat years) with (List.length (range 1 (years + 1)))
      by (rewrite range_length; f_equal; lia).
    refine (for_each_invariant _
             (fun i s => schedule_inv i s /\ hd_error (rows s) = hd_error (rows st0))
             _ st0 st _ _ Hloop).
    - intros i y s s1 Hy [Hi Hhd] Hb. split.
      + eapply year_body_keeps; [| exact Hi | exact Hb].
        apply range_nth in Hy. lia.
      + apply year_body_inv in Hb as (pr & _ & ->). simpl.
        destruct Hi as (Hlen & _). destruct (rows s); [discriminate | exact Hhd].
    - split; [| reflexivity].
      unfold schedule_inv, st0; simpl.
      refine (conj eq_refl (conj eq_refl (conj _ (conj _ _)))).
      + intros [| j] r Hj; simpl in Hj.
        * now injection Hj as <-.
        * destruct j; discriminate.
      + eexists. split; reflexivity.
      + intros [| t] rp r _ Hr; simpl in Hr; discriminate. }
  destruct Hinv as [Hinv Hhd].
  exists st. eexists.
  refine (conj eq_refl (conj eq_refl (conj Hinv (conj _ _)))).
  - rewrite Hhd. reflexivity.
  - repeat split.
Qed.

(** The schedule builder returns on valid arguments. *)
Lemma build_cashflow_schedule_returns
    (size price : Q) (years : Z) (cpw itc gen esc om : Q) :
  (0 < years)%Z -> 0 < price -> 0 <= size -> 0 < cpw -> 0 <= itc <= 1 ->
  0 < gen -> 0 <= esc -> 0 <= om ->
  (1 + esc) ^ (years - 1) < FLOAT_OVERFLOW ->
  exists table series,
    build_cashflow_schedule size price years cpw itc gen esc om = Ok (table, series).
Proof.
  intros Hy Hp Hs Hc Hi Hg He Ho Hfit. unfold build_cashflow_schedule.
  destruct (years <=? 0)%Z eqn:Ey; [order_facts; lia |].
  destruct (Qleb price 0) eqn:Ep; [order_facts; lra |].
  rewrite calc_upfront_capex_ok by exact Hc. simpl.
  rewrite calc_itc_value_ok; [| nra | exact Hi]. simpl.
  rewrite calc_annual_generation_kwh_ok by exact Hg. simpl.
  rewrite annual_om_cost_ok by exact Ho. simpl.
  match goal with
  | |- context [for_each ?b ?l ?s0] =>
      destruct (for_each_returns b l) with (st := s0) as [st Hst]
  end.
  - intros y s Hin. unfold year_body. apply range_In in Hin.
    rewrite electricity_price_for_year_ok; [| exact Hp | lia | exact He |].
    + cbn [bind]. eexists. reflexivity.
    + apply (Qle_lt_trans _ ((1 + esc) ^ (years - 1))); [| exact Hfit].
      apply escalation_factor_mono; [exact He | lia].
  - rewrite Hst. simpl. eexists. eexists. reflexivity.
Qed.

(** Rows labelled by their position are the years 0, 1, ... in order. *)
Lemma years_in_order (table : list CashFlowRow) (n : nat) :
  List.length table = n ->
  (forall j r, nth_error table j = Some r -> year r = Z.of_nat j) ->
  map year table = range 0 (Z.of_nat n).
Proof.
  intros Hlen Hyear. apply nth_error_ext. intros j.
  unfold range. rewrite !nth_error_map, nth_error_seq, Z.sub_0_r, Nat2Z.id.
  destruct (Nat.ltb_spec j n) as [Hlt | Hge].
  - destruct (nth_error table j) as [r |] eqn:E.
    + simpl. now rewrite (Hyear j r E).
    + apply nth_error_None in E. lia.
  - assert (E : nth_error table j = None) by (apply nth_error_None; lia).
    now rewrite E.
Qed.

(** ** The range of the power *)

Lemma SCALE_pos : 0 < SCALE.
Proof. reflexivity. Qed.

Lemma round_up_ge (q : Q) : q <= round_up q.
Proof.
  unfold round_up. apply Qle_shift_div_l; [exact SCALE_pos |].
  apply Qle_ceiling.
Qed.

Lemma round_down_le (q : Q) : round_down q <= q.
Proof.
  unfold round_down. apply Qle_shift_div_r; [exact SCALE_pos |].
  apply Qfloor_le.
Qed.

Lemma round_down_nonneg (q : Q) : 0 <= q -> 0 <= round_down q.
Proof.
  intros Hq. unfold round_down. apply Qle_shift_div_l; [exact SCALE_pos |].
  rewrite Qmult_0_l.
  assert (H : (Qfloor 0 <= Qfloor (q * SCALE))%Z).
  { apply Qfloor_resp_le. apply Qmult_le_0_compat; [exact Hq |].
    apply Qlt_le_weak, SCALE_pos. }
  change (Qfloor 0) with 0%Z in H.
  change 0 with (inject_Z 0). rewrite <- Zle_Qle. exact H.
Qed.

Lemma Qpower_double (x : Q) (p : positive) :
  x ^ Z.pos p~0 == x ^ Z.pos p * x ^ Z.pos p.
Proof.
  replace (Z.pos p~0) with (Z.pos p + Z.pos p)%Z by lia.
  apply Qpower_plus'. lia.
Qed.

Lemma Qpower_double_succ (x : Q) (p : positive) :
  x ^ Z.pos p~1 == x * (x ^ Z.pos p * x ^ Z.pos p).
Proof.
  replace (Z.pos p~1) with (1 + (Z.pos p + Z.pos p))%Z by lia.
  rewrite Qpower_plus' by lia. rewrite Qpower_plus' by lia.
  now rewrite Qpower_1_r.
Qed.

Lemma square_mono (a b : Q) : 0 <= a -> a <= b -> a * a <= b * b.
Proof. intros Ha Hab. nra. Qed.

Lemma scaled_square_mono (x a b : Q) :
  0 <= x -> 0 <= a -> a <= b -> x * (a * a) <= x * (b * b).
Proof.
  intros Hx Ha Hab. rewrite !(Qmult_comm x).
  apply Qmult_le_compat_r; [now apply square_mono | exact Hx].
Qed.

Lemma pow_up_ge (x : Q) (n : positive) : 0 <= x -> x ^ Z.pos n <= pow_up x n.
Proof.
  intros Hx. induction n as [p IH | p IH |]; cbn [pow_up].
  - rewrite Qpower_double_succ.
    apply (Qle_trans _ (x * (pow_up x p * pow_up x p))); [| apply round_up_ge].
    apply scaled_square_mono; [exact Hx | now apply Qpower_0_le | exact IH].
  - rewrite Qpower_double.
    apply (Qle_trans _ (pow_up x p * pow_up x p)); [| apply round_up_ge].
    apply square_mono; [now apply Qpower_0_le | exact IH].
  - rewrite Qpower_1_r. apply Qle_refl.
Qed.

Lemma pow_down_le (x : Q) (n : positive) :
  0 <= x -> 0 <= pow_down x n /\ pow_down x n <= x ^ Z.pos n.
Proof.
  intros Hx. induction n as [p [IH0 IH] | p [IH0 IH] |]; cbn [pow_down].
  - assert (H0 : 0 <= x * (pow_down x p * pow_down x p))
      by (repeat apply Qmult_le_0_compat; assumption).
    split; [now apply round_down_nonneg |].
    rewrite Qpower_double_succ.
    apply (Qle_trans _ (x * (pow_down x p * pow_down x p)));
      [apply round_down_le | now apply scaled_square_mono].
  - assert (H0 : 0 <= pow_down x p * pow_down x p)
      by (apply Qmult_le_0_compat; assumption).
    split; [now apply round_down_nonneg |].
    rewrite Qpower_double.
    apply (Qle_trans _ (pow_down x p * pow_down x p));
      [apply round_down_le | now apply square_mono].
  - split; [exact Hx | rewrite Qpower_1_r; apply Qle_refl].
Qed.

(** Half the binary64 range is in range. *)
Lemma half_range_fits : 2 ^ 1023 < FLOAT_OVERFLOW.
Proof. vm_compute. reflexivity. Qed.

(** With the default escalation the factor of every year up to 28745 is in
    range, and that of every later year is not. *)
Lemma default_factor_fits (y : Z) :
  (1 <= y <= 28745)%Z -> (1 + PRICE_ESCALATION) ^ (y - 1) < FLOAT_OVERFLOW.
Proof.
  intros Hy.
  apply (Qle_lt_trans _ ((1 + PRICE_ESCALATION) ^ 28744)).
  - apply Qpower_le_compat_l; [lia | discriminate].
  - apply (Qle_lt_trans _ (pow_up (1 + PRICE_ESCALATION) 28744)).
    + apply (pow_up_ge (1 + PRICE_ESCALATION) 28744 ltac:(discriminate)).
    + vm_compute. reflexivity.
Qed.

Lemma default_factor_overflows (y : Z) :
  (28746 <= y)%Z -> FLOAT_OVERFLOW <= (1 + PRICE_ESCALATION) ^ (y - 1).
Proof.
  intros Hy.
  apply (Qle_trans _ ((1 + PRICE_ESCALATION) ^ 28745)).
  - apply (Qle_trans _ (pow_down (1 + PRICE_ESCALATION) 28745)).
    + vm_compute. discriminate.
    + apply (proj2 (pow_down_le (1 + PRICE_ESCALATION) 28745 ltac:(discriminate))).
  - apply Qpower_le_compat_l; [lia | discriminate].
Qed.

(** A loop that meets a year whose factor is out of range raises
    OverflowError, the arguments being valid otherwise. *)
Lemma loop_overflows (p e g om : Q) (l : list Z) :
  0 < p -> 0 <= e -> (forall y, In y l -> (1 <= y)%Z) ->
  (exists y, In y l /\ FLOAT_OVERFLOW <= (1 + e) ^ (y - 1)) ->
  forall st,
  for_each (year_body p e g om) l st
    = Raise (OverflowError "(34, 'Numerical result out of range')").
Proof.
  intros Hp He. induction l as [| y0 l IH]; intros Hyears (y & Hin & Hover) st.
  - destruct Hin.
  - cbn [for_each]. unfold year_body at 1.
    destruct (Qlt_le_dec ((1 + e) ^ (y0 - 1)) FLOAT_OVERFLOW) as [Hfit | Hout].
    + rewrite electricity_price_for_year_ok;
        [| exact Hp | apply Hyears; now left | exact He | exact Hfit].
      cbn [bind]. apply IH.
      * intros z Hz. apply Hyears. now right.
      * exists y. split; [| exact Hover].
        destruct Hin as [<- | Hin]; [| exact Hin].
        exfalso. apply (Qlt_not_le _ _ Hfit Hover).
    + unfold electricity_price_for_year.
      assert (Hy0 : (1 <= y0)%Z) by (apply Hyears; now left).
      destruct (Qleb p 0) eqn:E1; [order_facts; lra |].
      destruct (y0 <? 1)%Z eqn:E2; [order_facts; lia |].
      destruct (Qltb e 0) eqn:E3; [order_facts; lra |].
      rewrite float_pow_overflow by exact Hout. reflexivity.
Qed.

(** The builder on valid arguments and a horizon that reaches such a year. *)
Lemma build_cashflow_schedule_overflows
    (size price : Q) (years : Z) (cpw itc gen esc om : Q) :
  (0 < years)%Z -> 0 < price -> 0 <= size -> 0 < cpw -> 0 <= itc <= 1 ->
  0 < gen -> 0 <= esc -> 0 <= om ->
  FLOAT_OVERFLOW <= (1 + esc) ^ (years - 1) ->
  build_cashflow_schedule size price years cpw itc gen esc om
    = Raise (OverflowError "(34, 'Numerical result out of range')").
Proof.
  intros Hy Hp Hs Hc Hi Hg He Ho Hover. unfold build_cashflow_schedule.
  destruct (years <=? 0)%Z eqn:Ey; [order_facts; lia |].
  destruct (Qleb price 0) eqn:Ep; [order_facts; lra |].
  rewrite calc_upfront_capex_ok by exact Hc. cbn [bind].
  rewrite calc_itc_value_ok; [| nra | exact Hi]. cbn [bind].
  rewrite calc_annual_generation_kwh_ok by exact Hg. cbn [bind].
  rewrite annual_om_cost_ok by exact Ho. cbn [bind].
  rewrite loop_overflows; [reflexivity | exact Hp | exact He | |].
  - intros y Hin. apply range_In in Hin. lia.
  - exists years. split; [| exact Hover].
    apply in_map_iff. exists (Z.to_nat (years - 1)). split; [lia |].
    apply in_seq. lia.
Qed.

(** ** The schedule builder *)

(** C6, as the code has it: on a horizon of 1 to 1000000 years whose last
    escalation factor [(1 + escalation) ^ (years - 1)] is at most [2^1023],
    half the binary64 range, with a base price > 0, a size >= 0 and
    assumptions in their ranges, the schedule builder returns a table of
    exactly [years + 1] rows whose year labels are 0, 1, ..., [years] in this
    order; the cash-flow series has one entry per row.  The two bounds leave
    the rounding of [1.0 + escalation] and of the power far from the end of
    the range. *)
Theorem schedule_has_one_row_per_year
    (size price : Q) (years : Z) (cpw itc gen esc om : Q) :
  (0 < years <= 1000000)%Z ->
  0 < price -> 0 <= size -> 0 < cpw -> 0 <= itc <= 1 ->
  0 < gen -> 0 <= esc -> 0 <= om ->
  (1 + esc) ^ (years - 1) <= 2 ^ 1023 ->
  exists table series,
    build_cashflow_schedule size price years cpw itc gen esc om
      = Ok (table, series) /\
    Z.of_nat (List.length table) = (years + 1)%Z /\
    map year table = range 0 (years + 1) /\
    List.length series = List.length table.
Proof.
  intros [Hy _] Hp Hs Hc Hi Hg He Ho Hfit.
  destruct (build_cashflow_schedule_returns size price years cpw itc gen esc om)
    as (table & series & Hb); try assumption.
  { apply (Qle_lt_trans _ _ _ Hfit half_range_fits). }
  exists table, series. split; [exact Hb |].
  apply build_cashflow_schedule_inv in Hb
    as (_ & _ & st & r0 & -> & -> & (Hlen & Hcf & Hyear & _) & _).
  split; [rewrite Hlen; lia |]. split.
  - replace (years + 1)%Z with (Z.of_nat (S (Z.to_nat years))) by lia.
    now apply years_in_order.
  - now rewrite <- Hcf, length_map.
Qed.

Lemma schedule_has_one_row_per_year_witness :
  exists table series,
    build_cashflow_schedule 10 (20 # 100) 25 CAPEX_PER_WATT ITC_RATE
      GEN_KWH_PER_KW_YEAR PRICE_ESCALATION OM_PER_KW_YEAR = Ok (table, series) /\
    Z.of_nat (List.length table) = (25 + 1)%Z /\
    map year table = range 0 (25 + 1) /\
    List.length series = List.length table.
Proof.
  apply (schedule_has_one_row_per_year 10 (20 # 100) 25 CAPEX_PER_WATT ITC_RATE
           GEN_KWH_PER_KW_YEAR PRICE_ESCALATION OM_PER_KW_YEAR);
    [ lia | reflexivity | discriminate | reflexivity | split; discriminate
    | reflexivity | discriminate | discriminate | vm_compute; discriminate ].
Defined.

(** C6 fails on the code: for a 10 kW system at 0.20 $/kWh with the default
    assumptions and a horizon of 28746 years, the builder returns no rows: the
    factor [1.025 ** 28745] of the last year is out of the binary64 range and
    the power raises OverflowError. *)
Lemma horizon_28746_overflows :
  build_cashflow_schedule 10 0.20 28746 CAPEX_PER_WATT ITC_RATE
    GEN_KWH_PER_KW_YEAR PRICE_ESCALATION OM_PER_KW_YEAR
  = Raise (OverflowError "(34, 'Numerical result out of range')").
Proof.
  apply build_cashflow_schedule_overflows;
    [ lia | reflexivity | discriminate | reflexivity | split; discriminate
    | reflexivity | discriminate | discriminate
    | apply default_factor_overflows; lia ].
Qed.

(** C3: in every schedule the builder returns, the cumulative cash flow is the
    running sum of the net cash flows: row 0's cumulative equals row 0's net
    (the total before year 0 is 0), and for every t >= 1 the cumulative of row
    t is the cumulative of row t-1 plus the net of row t. *)
Theorem cumulative_is_running_sum
    (size price : Q) (years : Z) (cpw itc gen esc om : Q)
    (table : DataFrame) (series : list Q) :
  build_cashflow_schedule size price years cpw itc gen esc om = Ok (table, series) ->
  (exists r0, nth_error table 0 = Some r0 /\
              cumulative_cashflow r0 == net_cashflow r0) /\
  (forall t rp r, (1 <= t)%nat ->
      nth_error table (t - 1) = Some rp -> nth_error table t = Some r ->
      cumulative_cashflow r == cumulative_cashflow rp + net_cashflow r).
Proof.
  intros Hb.
  apply build_cashflow_schedule_inv in Hb
    as (_ & _ & st & r0 & -> & -> & (_ & _ & _ & _ & Hstep) & Hhd & _ & _ & _ & Hc0).
  split.
  - exists r0. split.
    + destruct (rows st); [discriminate | exact Hhd].
    + rewrite Hc0. apply Qplus_0_l.
  - intros t rp r Ht Hrp Hr.
    destruct t as [| t]; [lia |].
    simpl in Hrp. rewrite Nat.sub_0_r in Hrp.
    rewrite (Hstep t rp r Hrp Hr). reflexivity.
Qed.

Lemma cumulative_is_running_sum_witness :
  exists table series,
    build_cashflow_schedule 10 (20 # 100) 3 CAPEX_PER_WATT ITC_RATE
      GEN_KWH_PER_KW_YEAR PRICE_ESCALATION OM_PER_KW_YEAR = Ok (table, series) /\
    (exists r0, nth_error table 0 = Some r0 /\
                cumulative_cashflow r0 == net_cashflow r0) /\
    (forall t rp r, (1 <= t)%nat ->
        nth_error table (t - 1) = Some rp -> nth_error table t = Some r ->
        cumulative_cashflow r == cumulative_cashflow rp + net_cashflow r).
Proof.
  eexists. eexists. split.
  - vm_compute. reflexivity.
  - eapply (cumulative_is_running_sum 10 (20 # 100) 3 CAPEX_PER_WATT ITC_RATE
              GEN_KWH_PER_KW_YEAR PRICE_ESCALATION OM_PER_KW_YEAR).
    vm_compute. reflexivity.
Defined.

(** ** Payback *)

(** The scan returns the label of the first row whose cumulative cash flow is
    non-negative, or nothing when every row is negative. *)
Lemma first_non_negative_spec (table : list CashFlowRow) :
  match first_non_negative table with
  | Some y =>
      exists i r,
        nth_error table i = Some r /\ y = year r /\
        0 <= cumulative_cashflow r /\
        (forall j rj, (j < i)%nat -> nth_error table j = Some rj ->
                      cumulative_cashflow rj < 0)
  | None =>
      forall j rj, nth_error table j = Some rj -> cumulative_cashflow rj < 0
  end.
Proof.
  induction table as [| r0 rest IH]; simpl.
  - intros [| j] rj Hj; discriminate.
  - destruct (Qleb 0 (cumulative_cashflow r0)) eqn:E0; order_facts.
    + exists 0%nat, r0. repeat split; auto. intros j rj Hj. lia.
    + destruct (first_non_negative rest) as [y |].
      * destruct IH as (i & r & Hi & Hy & Hr & Hbefore).
        exists (S i), r. repeat split; auto.
        intros [| j] rj Hlt Hj; simpl in Hj.
        -- now injection Hj as <-.
        -- apply (Hbefore j); [lia | exact Hj].
      * intros [| j] rj Hj; simpl in Hj.
        -- now injection Hj as <-.
        -- now apply (IH j).
Qed.

(** Testing row 0 apart (lines 183-184) is the first step of the same scan. *)
Lemma calc_payback_period_years_scan (r0 : CashFlowRow) (rest : list CashFlowRow) :
  calc_payback_period_years (r0 :: rest) = Ok (first_non_negative (r0 :: rest)).
Proof.
  simpl. now destruct (Qleb 0 (cumulative_cashflow r0)).
Qed.

(** C4: on a non-empty schedule, the payback derivation returns the year label
    of the first row, in table order and row 0 included, whose cumulative cash
    flow is >= 0, and returns [None] when no row reaches >= 0.  Hence, rows
    being labelled by their position, a returned year Y is such that row Y has
    a cumulative >= 0 and every row before Y a cumulative < 0. *)
Theorem payback_is_first_non_negative_year (table : DataFrame) :
  table <> [] ->
  (exists res,
     calc_payback_period_years table = Ok res /\
     match res with
     | Some y =>
         exists i r,
           nth_error table i = Some r /\ y = year r /\
           0 <= cumulative_cashflow r /\
           (forall j rj, (j < i)%nat -> nth_error table j = Some rj ->
                         cumulative_cashflow rj < 0)
     | None =>
         forall j rj, nth_error table j = Some rj -> cumulative_cashflow rj < 0
     end) /\
  ((forall j r, nth_error table j = Some r -> year r = Z.of_nat j) ->
   forall Y, calc_payback_period_years table = Ok (Some Y) ->
     (0 <= Y)%Z /\
     (exists r, nth_error table (Z.to_nat Y) = Some r /\
                0 <= cumulative_cashflow r) /\
     (forall t rt, (0 <= t < Y)%Z -> nth_error table (Z.to_nat t) = Some rt ->
                   cumulative_cashflow rt < 0)).
Proof.
  intros Hne. destruct table as [| r0 rest]; [congruence |].
  rewrite calc_payback_period_years_scan.
  pose proof (first_non_negative_spec (r0 :: rest)) as Hspec.
  split.
  - exists (first_non_negative (r0 :: rest)). split; [reflexivity | exact Hspec].
  - intros Hlabel Y HY.
    assert (HY' : first_non_negative (r0 :: rest) = Some Y) by congruence.
    rewrite HY' in Hspec.
    destruct Hspec as (i & r & Hi & Hy & Hr & Hbefore).
    rewrite (Hlabel i r Hi) in Hy. subst Y. rewrite Nat2Z.id.
    split; [lia |]. split; [now exists r |].
    intros t rt Ht Hrt. apply (Hbefore (Z.to_nat t)); [lia | exact Hrt].
Qed.

Lemma payback_is_first_non_negative_year_witness :
  sample_schedule <> [] /\
  calc_payback_period_years sample_schedule = Ok (Some 7%Z) /\
  (exists r, nth_error sample_schedule 7 = Some r /\
             0 <= cumulative_cashflow r) /\
  (forall t rt, (0 <= t < 7)%Z ->
                nth_error sample_schedule (Z.to_nat t) = Some rt ->
                cumulative_cashflow rt < 0).
Proof.
  assert (Hne : sample_schedule <> []) by (vm_compute; discriminate).
  assert (Hlabel : forall j r, nth_error sample_schedule j = Some r ->
                               year r = Z.of_nat j).
  { intros j r.
    do 9 (destruct j as [| j]; [vm_compute; intros [= <-]; reflexivity |]).
    vm_compute. destruct j; discriminate. }
  assert (Hpb : calc_payback_period_years sample_schedule = Ok (Some 7%Z))
    by (vm_compute; reflexivity).
  destruct (payback_is_first_non_negative_year sample_schedule Hne)
    as [_ Hyear].
  destruct (Hyear Hlabel 7%Z Hpb) as (_ & Hrow & Hbefore).
  split; [exact Hne |]. split; [exact Hpb |]. split; [exact Hrow | exact Hbefore].
Defined.

(** On the sample schedule the payback year is 7. *)
Example sample_schedule_payback :
  calc_payback_period_years sample_schedule = Ok (Some 7%Z).
Proof. vm_compute. reflexivity. Qed.

(** ** The worked example *)

(** C5: a 10 kW system at a base price of 0.20 $/kWh over 25 years, with the
    default assumptions (2.50 $/W, ITC 0.30, 1400 kWh/kW/yr, escalation 0.025,
    O&M 15 $/kW/yr): capex 25000, ITC 7500, year-0 net -17500, year-1
    generation 14000 kWh, year-1 price 0.20, year-1 gross savings 2800,
    year-1 O&M 150, year-1 net 2650, year-1 cumulative -14850. *)
Theorem worked_example :
  CAPEX_PER_WATT == 2.50 /\ ITC_RATE == 0.30 /\ GEN_KWH_PER_KW_YEAR == 1400 /\
  PRICE_ESCALATION == 0.025 /\ OM_PER_KW_YEAR == 15 /\
  exists capex itc table series r0 r1 price1,
    calc_upfront_capex 10 CAPEX_PER_WATT = Ok capex /\ capex == 25000 /\
    calc_itc_value capex ITC_RATE = Ok itc /\ itc == 7500 /\
    build_cashflow_schedule 10 0.20 25 CAPEX_PER_WATT ITC_RATE
      GEN_KWH_PER_KW_YEAR PRICE_ESCALATION OM_PER_KW_YEAR = Ok (table, series) /\
    nth_error table 0 = Some r0 /\ nth_error table 1 = Some r1 /\
    net_cashflow r0 == -17500 /\
    generation_kwh r1 == 14000 /\
    price_per_kwh r1 = Some price1 /\ price1 == 0.20 /\
    generation_kwh r1 * price1 == 2800 /\
    om_cost r1 == 150 /\
    net_cashflow r1 == 2650 /\
    cumulative_cashflow r1 == -14850.
Proof.
  repeat (split; [reflexivity |]).
  do 7 eexists.
  split; [vm_compute; reflexivity |]. split; [reflexivity |].
  split; [vm_compute; reflexivity |]. split; [reflexivity |].
  split; [vm_compute; reflexivity |].
  split; [reflexivity |]. split; [reflexivity |].
  split; [reflexivity |]. split; [reflexivity |].
  split; [reflexivity |].
  repeat split; reflexivity.
Qed.

(** On binary64 values the figures of the worked example come out the same.
    The literals 0.20 and 0.30 are read as the nearest binary64 values,
    [0x1.999999999999ap-3] and [0x1.3333333333333p-2]; every product and sum
    then rounds to the figure of the exact model. *)
Lemma worked_example_binary64 :
  Binary64.first_rows 10 0x1.999999999999ap-3 2.5 0x1.3333333333333p-2 1400 15
  = {| Binary64.capex := 25000;
       Binary64.itc := 7500;
       Binary64.net_cashflow_0 := -17500;
       Binary64.cumulative_0 := -17500;
       Binary64.generation_kwh_1 := 14000;
       Binary64.price_per_kwh_1 := 0x1.999999999999ap-3;
       Binary64.gross_savings_1 := 2800;
       Binary64.om_cost_1 := 150;
       Binary64.net_cashflow_1 := 2650;
       Binary64.cumulative_1 := -14850 |}%float.
Proof. vm_compute. reflexivity. Qed.

(** ** Price escalation *)




(** ** IRR *)

(** C9: on a cash-flow series with fewer than 2 entries (the empty and the
    1-element series included) the IRR derivation returns [None], whatever
    the solver would say; and whenever the solver's result is NaN, it returns
    [None] as well.  It never raises. *)
Theorem irr_undefined_on_short_series_or_nan
    (npf_irr : list Q -> np_value) (cashflows : list Q) :
  ((List.length cashflows < 2)%nat -> calc_project_irr npf_irr cashflows = None) /\
  (npf_irr cashflows = np_nan -> calc_project_irr npf_irr cashflows = None).
Proof.
  unfold calc_project_irr. split.
  - intros Hlen. destruct cashflows as [| c0 [| c1 rest]]; simpl in *;
      [reflexivity | reflexivity | lia].
  - intros Hnan. rewrite Hnan. now destruct (_ || _).
Qed.

Lemma irr_undefined_on_short_series_or_nan_witness :
  calc_project_irr (fun _ => np_float 1) [] = None /\
  calc_project_irr (fun _ => np_float 1) [-17500] = None /\
  calc_project_irr no_rate [-17500; 2650] = None.
Proof.
  split; [| split].
  - apply (proj1 (irr_undefined_on_short_series_or_nan (fun _ => np_float 1) [])).
    simpl. lia.
  - apply (proj1 (irr_undefined_on_short_series_or_nan (fun _ => np_float 1) [-17500])).
    simpl. lia.
  - apply (proj2 (irr_undefined_on_short_series_or_nan no_rate [-17500; 2650])).
    reflexivity.
Defined.

(** With two entries or more, a float found by the solver is returned. *)
Lemma calc_project_irr_float (npf_irr : list Q -> np_value)
    (cashflows : list Q) (x : Q) :
  (2 <= List.length cashflows)%nat -> npf_irr cashflows = np_float x ->
  calc_project_irr npf_irr cashflows = Some x.
Proof.
  intros Hlen Hx. unfold calc_project_irr. rewrite Hx.
  destruct cashflows as [| c0 [| c1 rest]]; simpl in *; [lia | lia | reflexivity].
Qed.

(** ** Negative sizes *)

(** C10, as the code has it: for a size < 0, with capex_per_watt >= 1 (as the
    default 2.50 is) and itc_rate in [0,1], the schedule builder raises a
    ValueError and returns no schedule.  On a valid horizon and base price the
    error is the ITC formula's: the capex formula accepts the negative size
    and returns a negative capex, which the check [capex >= 0] refuses; the
    generation and O&M formulas accept the negative size too, so that no
    formula tests the size itself.  A cost per watt of at least 1 keeps the
    product [capex_per_watt * watts] from vanishing. *)
Theorem negative_size_rejected_by_itc_check
    (size price : Q) (years : Z) (cpw itc gen esc om : Q) :
  size < 0 -> 1 <= cpw -> 0 <= itc <= 1 ->
  (exists msg,
     build_cashflow_schedule size price years cpw itc gen esc om
       = Raise (ValueError msg)) /\
  ((0 < years)%Z -> 0 < price ->
   build_cashflow_schedule size price years cpw itc gen esc om
     = Raise (ValueError "capex must be >= 0.")) /\
  (exists capex,
     calc_upfront_capex size cpw = Ok capex /\ capex < 0 /\
     calc_itc_value capex itc = Raise (ValueError "capex must be >= 0.")) /\
  (0 < gen -> exists g, calc_annual_generation_kwh size gen = Ok g) /\
  (0 <= om -> exists c, annual_om_cost size om = Ok c).
Proof.
  intros Hs Hc1 Hi.
  assert (Hc : 0 < cpw) by lra.
  assert (Hcapex : cpw * (size * 1000) < 0) by nra.
  assert (Hitc : calc_itc_value (cpw * (size * 1000)) itc
                 = Raise (ValueError "capex must be >= 0.")).
  { unfold calc_itc_value.
    destruct (Qltb (cpw * (size * 1000)) 0) eqn:E; [reflexivity |].
    order_facts. lra. }
  assert (Hbuild : (0 < years)%Z -> 0 < price ->
            build_cashflow_schedule size price years cpw itc gen esc om
              = Raise (ValueError "capex must be >= 0.")).
  { intros Hy Hp. unfold build_cashflow_schedule.
    destruct (years <=? 0)%Z eqn:Ey; [order_facts; lia |].
    destruct (Qleb price 0) eqn:Ep; [order_facts; lra |].
    rewrite calc_upfront_capex_ok by exact Hc. simpl.
    rewrite Hitc. reflexivity. }
  split; [| split; [exact Hbuild | split; [| split]]].
  - destruct (years <=? 0)%Z eqn:Ey.
    + eexists. unfold build_cashflow_schedule. rewrite Ey. reflexivity.
    + destruct (Qleb price 0) eqn:Ep.
      * eexists. unfold build_cashflow_schedule. rewrite Ey, Ep. reflexivity.
      * eexists. apply Hbuild; order_facts; [lia | exact Ep].
  - exists (cpw * (size * 1000)).
    split; [now apply calc_upfront_capex_ok | split; assumption].
  - intros Hg. eexists. now apply calc_annual_generation_kwh_ok.
  - intros Ho. eexists. now apply annual_om_cost_ok.
Qed.

Lemma negative_size_rejected_by_itc_check_witness :
  (exists msg,
     build_cashflow_schedule (-5) 0.20 25 CAPEX_PER_WATT ITC_RATE
       GEN_KWH_PER_KW_YEAR PRICE_ESCALATION OM_PER_KW_YEAR
       = Raise (ValueError msg)) /\
  build_cashflow_schedule (-5) 0.20 25 CAPEX_PER_WATT ITC_RATE
    GEN_KWH_PER_KW_YEAR PRICE_ESCALATION OM_PER_KW_YEAR
    = Raise (ValueError "capex must be >= 0.") /\
  (exists capex,
     calc_upfront_capex (-5) CAPEX_PER_WATT = Ok capex /\ capex < 0 /\
     calc_itc_value capex ITC_RATE = Raise (ValueError "capex must be >= 0.")) /\
  (exists g, calc_annual_generation_kwh (-5) GEN_KWH_PER_KW_YEAR = Ok g) /\
  (exists c, annual_om_cost (-5) OM_PER_KW_YEAR = Ok c).
Proof.
  assert (Hs : -5 < 0) by reflexivity.
  assert (Hc : 1 <= CAPEX_PER_WATT) by discriminate.
  assert (Hi : 0 <= ITC_RATE <= 1) by (split; discriminate).
  destruct (negative_size_rejected_by_itc_check (-5) 0.20 25 CAPEX_PER_WATT
              ITC_RATE GEN_KWH_PER_KW_YEAR PRICE_ESCALATION OM_PER_KW_YEAR
              Hs Hc Hi) as (Hany & Hitc & Hcapex & Hgen & Hom).
  split; [exact Hany |].
  split; [apply Hitc; reflexivity |].
  split; [exact Hcapex |].
  split; [apply Hgen; reflexivity | apply Hom; discriminate].
Defined.

(** C10 fails on the code for a small cost per watt: with a size of -1e-170
    and a cost of 1e-160 $ per watt, both of the sign the claim asks for, the
    product [capex_per_watt * watts] is too small for binary64 and comes out
    as -0.0, which the check [capex < 0] lets pass: the builder returns a
    schedule, of 2 rows for a horizon of 1 year. *)
Lemma tiny_negative_size_returns_a_schedule :
  (- 1e-170 <? 0)%float = true /\ (0 <? 1e-160)%float = true /\
  ((0 <=? 0.3) && (0.3 <=? 1))%float = true /\
  exists table series,
    Binary64.build_cashflow_schedule (- 1e-170)%float 0.2%float 1
      1e-160%float 0.3%float 1400%float 0.025%float 15%float
      = Some (Ok (table, series)) /\
    List.length table = 2%nat.
Proof.
  split; [vm_compute; reflexivity |].
  split; [vm_compute; reflexivity |].
  split; [vm_compute; reflexivity |].
  eexists. eexists. split; [vm_compute; reflexivity | reflexivity].
Qed.

(** The error of the witness, evaluated. *)
Example negative_size_example :
  build_default (-5) 0.20 25 = Raise (ValueError "capex must be >= 0.").
Proof. vm_compute. reflexivity. Qed.

(** ** The entry point *)

Section EntryPoint.

Variable npf_irr : list Q -> np_value.
Variable series_round : Z -> Q -> Q.

(** A returned result, taken apart along the statements of
    [run_solar_model]. *)
Lemma run_solar_model_inv (prices : PriceFrame) (state : string)
    (size : Q) (years : Z) (res : ModelResult) :
  run_solar_model npf_irr series_round prices state size years = Ok res ->
  exists base_price table series,
    get_electricity_price prices state = Ok base_price /\
    calc_upfront_capex size CAPEX_PER_WATT = Ok (upfront_cost res) /\
    calc_annual_generation_kwh size GEN_KWH_PER_KW_YEAR
      = Ok (annual_generation_kwh res) /\
    build_default size base_price years = Ok (table, series) /\
    irr res = calc_project_irr npf_irr series /\
    calc_payback_period_years table = Ok (payback_years res) /\
    cashflow_table res = map (display_row series_round) table.
Proof.
  unfold run_solar_model.
  destruct (get_electricity_price prices state) as [p |] eqn:Hp;
    cbn [bind]; [| discriminate].
  destruct (calc_upfront_capex size CAPEX_PER_WATT) as [u |] eqn:Hu;
    cbn [bind]; [| discriminate].
  destruct (calc_annual_generation_kwh size GEN_KWH_PER_KW_YEAR) as [g |] eqn:Hg;
    cbn [bind]; [| discriminate].
  destruct (build_default size p years) as [[table series] |] eqn:Hb;
    cbn [bind]; [| discriminate].
  destruct (calc_payback_period_years table) as [pb |] eqn:Hpb;
    cbn [bind]; [| discriminate].
  intros [= <-]. exists p, table, series.
  cbn [upfront_cost annual_generation_kwh irr payback_years cashflow_table].
  repeat split; assumption.
Qed.

(** The entry point returns for a known state with a price > 0, a size >= 0
    and a horizon from 1 to 28745 years, the last one whose escalation factor
    is in the binary64 range. *)
Lemma run_solar_model_returns (prices : PriceFrame) (state : string)
    (size : Q) (years : Z) (base_price : Q) :
  get_electricity_price prices state = Ok base_price ->
  0 < base_price -> 0 <= size -> (0 < years <= 28745)%Z ->
  exists res,
    run_solar_model npf_irr series_round prices state size years = Ok res.
Proof.
  intros Hprice Hp Hs Hy. unfold run_solar_model. rewrite Hprice. cbn [bind].
  rewrite calc_upfront_capex_ok by reflexivity. cbn [bind].
  rewrite calc_annual_generation_kwh_ok by reflexivity. cbn [bind].
  destruct (build_cashflow_schedule_returns size base_price years
              CAPEX_PER_WATT ITC_RATE GEN_KWH_PER_KW_YEAR PRICE_ESCALATION
              OM_PER_KW_YEAR) as (table & series & Hb);
    [ lia | exact Hp | exact Hs | reflexivity | split; discriminate
    | reflexivity | discriminate | discriminate
    | apply default_factor_fits; lia | ].
  unfold build_default. rewrite Hb. cbn [bind].
  apply build_cashflow_schedule_inv in Hb
    as (_ & _ & st & r0 & -> & _ & (Hlen & _) & _).
  destruct (rows st) as [| r rest]; [discriminate |].
  rewrite calc_payback_period_years_scan. cbn [bind]. eexists. reflexivity.
Qed.

End EntryPoint.

(** The rounded copy keeps the rows and their year labels. *)
Lemma display_row_year (series_round : Z -> Q -> Q) (table : DataFrame) :
  map year (map (display_row series_round) table) = map year table.
Proof. rewrite map_map. apply map_ext. reflexivity. Qed.

(** C2, as the code has it: the entry point does not cap the horizon.  For a
    known state with a price > 0, a size >= 0 and a horizon from 1 to 28745
    years (beyond, the escalation factor leaves the binary64 range), the
    returned schedule has exactly [years + 1] rows, labelled 0, ..., [years];
    it has at most 25 + 1 rows exactly when the caller passes [years <= 25]. *)
Theorem entry_point_keeps_the_callers_horizon
    (npf_irr : list Q -> np_value) (series_round : Z -> Q -> Q)
    (prices : PriceFrame) (state : string) (size : Q) (years : Z)
    (base_price : Q) :
  get_electricity_price prices state = Ok base_price ->
  0 < base_price -> 0 <= size -> (0 < years <= 28745)%Z ->
  exists res,
    run_solar_model npf_irr series_round prices state size years = Ok res /\
    Z.of_nat (List.length (cashflow_table res)) = (years + 1)%Z /\
    map year (cashflow_table res) = range 0 (years + 1) /\
    ((Z.of_nat (List.length (cashflow_table res)) <= PROJECT_YEARS + 1)%Z
       <-> (years <= PROJECT_YEARS)%Z).
Proof.
  intros Hprice Hp Hs Hy.
  destruct (run_solar_model_returns npf_irr series_round prices state size years
              base_price Hprice Hp Hs Hy) as [res Hres].
  exists res. split; [exact Hres |].
  apply run_solar_model_inv in Hres
    as (p' & table & series & _ & _ & _ & Hb & _ & _ & Htable).
  apply build_cashflow_schedule_inv in Hb
    as (_ & _ & st & r0 & -> & _ & (Hlen & _ & Hyear & _) & _).
  assert (Hrows : Z.of_nat (List.length (cashflow_table res)) = (years + 1)%Z)
    by (rewrite Htable, length_map, Hlen; lia).
  split; [exact Hrows |]. split.
  - rewrite Htable, display_row_year.
    replace (years + 1)%Z with (Z.of_nat (S (Z.to_nat years))) by lia.
    now apply years_in_order.
  - rewrite Hrows. lia.
Qed.

Lemma entry_point_keeps_the_callers_horizon_witness :
  exists res,
    run_solar_model no_rate np_round sample_prices "California" 10 40 = Ok res /\
    Z.of_nat (List.length (cashflow_table res)) = (40 + 1)%Z /\
    map year (cashflow_table res) = range 0 (40 + 1) /\
    ((Z.of_nat (List.length (cashflow_table res)) <= PROJECT_YEARS + 1)%Z
       <-> (40 <= PROJECT_YEARS)%Z).
Proof.
  apply (entry_point_keeps_the_callers_horizon no_rate np_round sample_prices
           "California" 10 40 0.20);
    [vm_compute; reflexivity | reflexivity | discriminate | lia].
Defined.

(** C2 fails on the code: a run for California, 10 kW and 30 years returns a
    schedule of 31 rows, more than 25 + 1. *)
Lemma thirty_years_give_thirty_one_rows :
  exists res,
    run_solar_model no_rate np_round sample_prices "California" 10 30 = Ok res /\
    List.length (cashflow_table res) = 31%nat /\
    ~ (Z.of_nat (List.length (cashflow_table res)) <= PROJECT_YEARS + 1)%Z.
Proof.
  eexists. split; [vm_compute; reflexivity |].
  split; [reflexivity |]. vm_compute. intros H. now apply H.
Qed.

(** C1, as the code has it: a system size equal to 0 is accepted.  For a known
    state with a price > 0 and a horizon from 1 to 25 years, the range of the
    scenario input, the run returns a result:
    upfront cost 0, annual generation 0, a schedule of [years + 1] rows, and
    payback in year 0 (the cumulative cash flow of row 0 is 0). *)
Theorem zero_size_is_accepted
    (npf_irr : list Q -> np_value) (series_round : Z -> Q -> Q)
    (prices : PriceFrame) (state : string) (years : Z) (base_price : Q) :
  get_electricity_price prices state = Ok base_price ->
  0 < base_price -> (0 < years <= PROJECT_YEARS)%Z ->
  exists res,
    run_solar_model npf_irr series_round prices state 0 years = Ok res /\
    upfront_cost res == 0 /\
    annual_generation_kwh res == 0 /\
    Z.of_nat (List.length (cashflow_table res)) = (years + 1)%Z /\
    payback_years res = Some 0%Z.
Proof.
  intros Hprice Hp Hy.
  assert (Hy' : (0 < years <= 28745)%Z) by (unfold PROJECT_YEARS in Hy; lia).
  destruct (run_solar_model_returns npf_irr series_round prices state 0 years
              base_price Hprice Hp (Qle_refl 0) Hy') as [res Hres].
  exists res. split; [exact Hres |].
  apply run_solar_model_inv in Hres
    as (p' & table & series & _ & Hu & Hg & Hb & _ & Hpb & Htable).
  rewrite calc_upfront_capex_ok in Hu by reflexivity.
  rewrite calc_annual_generation_kwh_ok in Hg by reflexivity.
  injection Hu as Hu. injection Hg as Hg.
  apply build_cashflow_schedule_inv in Hb
    as (_ & _ & st & r0 & -> & _ & (Hlen & _) & Hhd & Hy0 & _ & Hn0 & Hc0).
  split; [rewrite <- Hu; reflexivity |].
  split; [rewrite <- Hg; reflexivity |].
  split; [rewrite Htable, length_map, Hlen; lia |].
  destruct (rows st) as [| r rest]; [discriminate |].
  injection Hhd as ->.
  simpl in Hpb.
  assert (H0 : Qleb 0 (cumulative_cashflow r0) = true).
  { apply Qleb_true. rewrite Hc0, Hn0.
    unfold CAPEX_PER_WATT, ITC_RATE. lra. }
  rewrite H0, Hy0 in Hpb. congruence.
Qed.

Lemma zero_size_is_accepted_witness :
  exists res,
    run_solar_model no_rate np_round sample_prices "California" 0 25 = Ok res /\
    upfront_cost res == 0 /\
    annual_generation_kwh res == 0 /\
    Z.of_nat (List.length (cashflow_table res)) = (25 + 1)%Z /\
    payback_years res = Some 0%Z.
Proof.
  apply (zero_size_is_accepted no_rate np_round sample_prices "California" 25 0.20);
    [vm_compute; reflexivity | reflexivity | unfold PROJECT_YEARS; lia].
Defined.

(** C1 fails on the code: the run for California with a size of 0 kW over 25
    years raises nothing and returns a result with a schedule of 26 rows. *)
Lemma zero_size_run_returns_a_schedule :
  (exists res,
     run_solar_model no_rate np_round sample_prices "California" 0 25 = Ok res /\
     List.length (cashflow_table res) = 26%nat) /\
  ~ (exists e,
       run_solar_model no_rate np_round sample_prices "California" 0 25 = Raise e).
Proof.
  split.
  - eexists. split; [vm_compute; reflexivity | reflexivity].
  - intros [e He]. vm_compute in He. discriminate He.
Qed.

(** ** Rounding *)

(** C8: in a result of the entry point, the IRR and the payback year are those
    derived from the schedule and the cash-flow series as the builder returned
    them, at full precision; the returned table is a copy of that schedule in
    which the price is rounded to 4 decimals, the net and cumulative cash
    flows to 2, and nothing else is changed.  Whatever the rounding does, the
    run returns the same IRR and payback year. *)
Theorem metrics_come_from_the_unrounded_schedule
    (npf_irr : list Q -> np_value) (series_round : Z -> Q -> Q)
    (prices : PriceFrame) (state : string) (size : Q) (years : Z)
    (res : ModelResult) :
  run_solar_model npf_irr series_round prices state size years = Ok res ->
  exists base_price table series,
    get_electricity_price prices state = Ok base_price /\
    build_default size base_price years = Ok (table, series) /\
    irr res = calc_project_irr npf_irr series /\
    calc_payback_period_years table = Ok (payback_years res) /\
    List.length (cashflow_table res) = List.length table /\
    (forall i r, nth_error table i = Some r ->
       exists d,
         nth_error (cashflow_table res) i = Some d /\
         year d = year r /\
         price_per_kwh d = option_map (series_round 4%Z) (price_per_kwh r) /\
         generation_kwh d = generation_kwh r /\
         om_cost d = om_cost r /\
         net_cashflow d = series_round 2%Z (net_cashflow r) /\
         cumulative_cashflow d = series_round 2%Z (cumulative_cashflow r)) /\
    (forall other_round : Z -> Q -> Q,
       exists res',
         run_solar_model npf_irr other_round prices state size years = Ok res' /\
         irr res' = irr res /\
         payback_years res' = payback_years res).
Proof.
  intros Hres. assert (Hrun := Hres).
  apply run_solar_model_inv in Hres
    as (p & table & series & Hp & Hu & Hg & Hb & Hirr & Hpb & Htable).
  exists p, table, series.
  refine (conj Hp (conj Hb (conj Hirr (conj Hpb (conj _ (conj _ _)))))).
  - rewrite Htable. apply length_map.
  - intros i r Hi. exists (display_row series_round r).
    rewrite Htable. split; [now apply map_nth_error |].
    repeat split.
  - intros other_round. unfold run_solar_model.
    rewrite Hp. cbn [bind]. rewrite Hu. cbn [bind]. rewrite Hg. cbn [bind].
    rewrite Hb. cbn [bind]. rewrite Hpb. cbn [bind].
    eexists. split; [reflexivity |].
    cbn [irr payback_years]. split; [symmetry; exact Hirr | reflexivity].
Qed.

Lemma metrics_come_from_the_unrounded_schedule_witness :
  exists res base_price table series,
    run_solar_model no_rate np_round near_miss_prices "Nevada" 1 5 = Ok res /\
    get_electricity_price near_miss_prices "Nevada" = Ok base_price /\
    build_default 1 base_price 5 = Ok (table, series) /\
    irr res = calc_project_irr no_rate series /\
    calc_payback_period_years table = Ok (payback_years res) /\
    List.length (cashflow_table res) = List.length table /\
    (forall i r, nth_error table i = Some r ->
       exists d,
         nth_error (cashflow_table res) i = Some d /\
         year d = year r /\
         price_per_kwh d = option_map (np_round 4) (price_per_kwh r) /\
         generation_kwh d = generation_kwh r /\
         om_cost d = om_cost r /\
         net_cashflow d = np_round 2 (net_cashflow r) /\
         cumulative_cashflow d = np_round 2 (cumulative_cashflow r)) /\
    (forall other_round : Z -> Q -> Q,
       exists res',
         run_solar_model no_rate other_round near_miss_prices "Nevada" 1 5
           = Ok res' /\
         irr res' = irr res /\
         payback_years res' = payback_years res).
Proof.
  eexists.
  assert (Hrun : run_solar_model no_rate np_round near_miss_prices "Nevada" 1 5
                 = Ok _) by (vm_compute; reflexivity).
  destruct (metrics_come_from_the_unrounded_schedule _ _ _ _ _ _ _ Hrun)
    as (p & table & series & H).
  exists p, table, series. split; [exact Hrun | exact H].
Defined.

(** The rounding is not what the payback is read from: in this run the
    cumulative cash flow of year 1 is -0.001, shown as 0 in the returned table;
    the payback year returned is 2, where a scan of the returned table would
    find year 1. *)
Example payback_ignores_the_rounding :
  exists res,
    run_solar_model no_rate np_round near_miss_prices "Nevada" 1 5 = Ok res /\
    payback_years res = Some 2%Z /\
    calc_payback_period_years (cashflow_table res) = Ok (Some 1%Z).
Proof.
  eexists. split; [vm_compute; reflexivity |].
  split; vm_compute; reflexivity.
Qed.

(** * Further properties of the code *)

(** ** Price lookup *)

(** A price is found exactly for the first record with the key. *)
Lemma first_match_some (key : string) (records : list (string * Q)) (cost : Q) :
  first_match key records = Some cost <->
  exists before after,
    records = before ++ (key, cost) :: after /\
    (forall r, In r before -> fst r <> key).
Proof.
  induction records as [| [s c] rest IH]; simpl.
  - split; [discriminate |]. intros (before & after & H & _).
    destruct before; discriminate.
  - destruct (String.eqb_spec s key) as [-> | Hne].
    + split.
      * intros [= <-]. exists [], rest. split; [reflexivity |]. intros r [].
      * intros (before & after & H & Hbefore).
        destruct before as [| r0 before].
        -- simpl in H. congruence.
        -- simpl in H. injection H as <- _.
           exfalso. apply (Hbefore (key, c)); [now left | reflexivity].
    + rewrite IH. split.
      * intros (before & after & -> & Hbefore).
        exists ((s, c) :: before), after. split; [reflexivity |].
        intros r [<- | Hr]; [exact Hne | now apply Hbefore].
      * intros (before & after & H & Hbefore).
        destruct before as [| r0 before].
        -- simpl in H. injection H as -> _. contradiction.
        -- simpl in H. injection H as <- ->.
           exists before, after. split; [reflexivity |].
           intros r Hr. apply Hbefore. now right.
Qed.

Lemma first_match_none (key : string) (records : list (string * Q)) :
  first_match key records = None <-> (forall r, In r records -> fst r <> key).
Proof.
  induction records as [| [s c] rest IH]; simpl.
  - split; [intros _ r [] | reflexivity].
  - destruct (String.eqb_spec s key) as [-> | Hne].
    + split; [discriminate |]. intros H.
      exfalso. apply (H (key, c)); [now left | reflexivity].
    + rewrite IH. split.
      * intros H r [<- | Hr]; [exact Hne | now apply H].
      * intros H r Hr. apply H. now right.
Qed.

(** The records of a loaded frame, cut at a position. *)
Lemma map_lower_split (records : list (string * Q))
    (before' after' : list (string * Q)) (key : string) (cost : Q) :
  map (fun r => (lower (fst r), snd r)) records = before' ++ (key, cost) :: after' ->
  exists before s after,
    records = before ++ (s, cost) :: after /\ lower s = key /\
    before' = map (fun r => (lower (fst r), snd r)) before.
Proof.
  revert before'. induction records as [| [s c] rest IH]; intros before' H.
  - destruct before'; discriminate.
  - destruct before' as [| r0 before']; simpl in H.
    + injection H as Hs Hc _. exists [], s, rest. subst. repeat split.
    + injection H as <- H. destruct (IH before' H) as (b & s' & a & -> & Hs & ->).
      exists ((s, c) :: b), s', a. repeat split; assumption.
Qed.

(** The lookup on a loaded frame, in terms of the CSV. *)
Lemma get_electricity_price_loaded (csv : PriceFrame) (state : string) :
  get_electricity_price (load_price_frame csv) state =
  if negb (has_column csv "state" && has_column csv "cost_per_kWh") then
    Raise (ValueError "CSV must contain 'state' and 'cost_per_kWh' columns")
  else
    match first_match (lower state)
            (map (fun r => (lower (fst r), snd r)) (pf_records csv)) with
    | None => Raise (ValueError ("State '" ++ state ++ "' not found in price table"))
    | Some cost => Ok cost
    end.
Proof. reflexivity. Qed.

(** X1: on the frame as the module loads it, a lookup returns a price exactly
    when both columns are there and some record's state equals the requested
    one up to the case of ASCII letters; the price is that of the first such
    record of the CSV. *)
Theorem lookup_finds_first_record_ignoring_case
    (csv : PriceFrame) (state : string) (cost : Q) :
  get_electricity_price (load_price_frame csv) state = Ok cost <->
  has_column csv "state" = true /\ has_column csv "cost_per_kWh" = true /\
  exists before s after,
    pf_records csv = before ++ (s, cost) :: after /\
    lower s = lower state /\
    (forall r, In r before -> lower (fst r) <> lower state).
Proof.
  rewrite get_electricity_price_loaded.
  destruct (has_column csv "state"); cbn [andb negb].
  2: { split; [discriminate | intros (H & _); discriminate]. }
  destruct (has_column csv "cost_per_kWh"); cbn [andb negb].
  2: { split; [discriminate | intros (_ & H & _); discriminate]. }
  split.
  - destruct (first_match _ _) as [c |] eqn:E; [| discriminate].
    intros [= ->]. split; [reflexivity |]. split; [reflexivity |].
    apply first_match_some in E as (before' & after' & Hsplit & Hbefore).
    apply map_lower_split in Hsplit as (before & s & after & Hrec & Hs & ->).
    exists before, s, after. repeat split; try assumption.
    intros r Hr. apply (Hbefore (lower (fst r), snd r)).
    apply (in_map (fun r => (lower (fst r), snd r))). exact Hr.
  - intros (_ & _ & before & s & after & Hrec & Hs & Hbefore).
    assert (E : first_match (lower state)
                  (map (fun r => (lower (fst r), snd r)) (pf_records csv))
                = Some cost).
    { apply first_match_some.
      exists (map (fun r => (lower (fst r), snd r)) before),
             (map (fun r => (lower (fst r), snd r)) after).
      split.
      - rewrite Hrec, map_app. simpl. now rewrite Hs.
      - intros r Hr. apply in_map_iff in Hr as (r' & <- & Hr'). simpl.
        now apply Hbefore. }
    rewrite E. reflexivity.
Qed.

(** X2: the failures around the lookup.  A CSV without a state column stops
    the module at import with KeyError (line 13), before any lookup.  With the
    state column and without the cost column every lookup raises the column
    ValueError, whatever the state.  With both columns and no record of the
    state, up to case, the lookup raises the not-found ValueError, which quotes
    the state as the caller wrote it. *)
Theorem lookup_failures (csv : PriceFrame) (state : string) :
  (has_column csv "state" = false ->
   import_price_frame csv = Raise (KeyError "state")) /\
  (has_column csv "state" = true -> has_column csv "cost_per_kWh" = false ->
   exists df,
     import_price_frame csv = Ok df /\
     get_electricity_price df state
       = Raise (ValueError "CSV must contain 'state' and 'cost_per_kWh' columns")) /\
  (has_column csv "state" = true -> has_column csv "cost_per_kWh" = true ->
   (forall r, In r (pf_records csv) -> lower (fst r) <> lower state) ->
   exists df,
     import_price_frame csv = Ok df /\
     get_electricity_price df state
       = Raise (ValueError ("State '" ++ state ++ "' not found in price table"))).
Proof.
  unfold import_price_frame. split; [| split].
  - intros H. now rewrite H.
  - intros H1 H2. rewrite H1. eexists. split; [reflexivity |].
    rewrite get_electricity_price_loaded, H1, H2. reflexivity.
  - intros H1 H2 Hnone. rewrite H1. eexists. split; [reflexivity |].
    rewrite get_electricity_price_loaded, H1, H2. cbn [andb negb].
    assert (E : first_match (lower state)
                  (map (fun r => (lower (fst r), snd r)) (pf_records csv))
                = None).
    { apply first_match_none. intros r Hr.
      apply in_map_iff in Hr as (r' & <- & Hr'). simpl. now apply Hnone. }
    rewrite E. reflexivity.
Qed.

Lemma lookup_failures_witness :
  import_price_frame {| pf_columns := ["cost_per_kWh"%string];
                        pf_records := [("Texas"%string, 0.12)] |}
    = Raise (KeyError "state") /\
  (exists df,
     import_price_frame {| pf_columns := ["state"%string];
                           pf_records := [("Texas"%string, 0.12)] |} = Ok df /\
     get_electricity_price df "Texas"
       = Raise (ValueError "CSV must contain 'state' and 'cost_per_kWh' columns")) /\
  (exists df,
     import_price_frame {| pf_columns := ["state"; "cost_per_kWh"]%string;
                           pf_records := [("Texas"%string, 0.12)] |} = Ok df /\
     get_electricity_price df "Atlantis"
       = Raise (ValueError "State 'Atlantis' not found in price table")).
Proof.
  refine (conj _ (conj _ _)).
  - apply (proj1 (lookup_failures _ "Texas")). reflexivity.
  - apply (proj1 (proj2 (lookup_failures
             {| pf_columns := ["state"%string];
                pf_records := [("Texas"%string, 0.12)] |} "Texas")));
      reflexivity.
  - apply (proj2 (proj2 (lookup_failures
             {| pf_columns := ["state"; "cost_per_kWh"]%string;
                pf_records := [("Texas"%string, 0.12)] |} "Atlantis")));
      [reflexivity | reflexivity |].
    intros r [<- | []]. vm_compute. discriminate.
Defined.

(** ** Scalar formulas *)

(** X3: for a cost per watt > 0 the capex grows with the size: a larger
    system never costs less, and a size >= 0 gives a capex >= 0. *)
Theorem upfront_capex_grows_with_size (cpw s1 s2 : Q) :
  0 < cpw -> s1 <= s2 ->
  exists c1 c2,
    calc_upfront_capex s1 cpw = Ok c1 /\
    calc_upfront_capex s2 cpw = Ok c2 /\
    c1 <= c2 /\
    (0 <= s1 -> 0 <= c1).
Proof.
  intros Hc Hs. rewrite !calc_upfront_capex_ok by exact Hc.
  do 2 eexists. do 2 (split; [reflexivity |]).
  split; [nra | intros H0; nra].
Qed.

Lemma upfront_capex_grows_with_size_witness :
  exists c1 c2,
    calc_upfront_capex 0.1 CAPEX_PER_WATT = Ok c1 /\
    calc_upfront_capex 4 CAPEX_PER_WATT = Ok c2 /\
    c1 <= c2 /\
    (0 <= 0.1 -> 0 <= c1).
Proof.
  apply (upfront_capex_grows_with_size CAPEX_PER_WATT 0.1 4);
    [reflexivity | discriminate].
Defined.

(** X4: a tax credit that is returned lies between 0 and the capex, so that
    the year-0 cash flow [- capex + itc] is never positive. *)
Theorem itc_value_between_zero_and_capex (capex itc_rate v : Q) :
  calc_itc_value capex itc_rate = Ok v ->
  0 <= v /\ v <= capex /\ - capex + v <= 0.
Proof.
  unfold calc_itc_value.
  destruct (Qltb capex 0) eqn:E1; [discriminate |].
  destruct (Qleb 0 itc_rate) eqn:E2; [| discriminate].
  destruct (Qleb itc_rate 1) eqn:E3; [| discriminate].
  simpl. intros [= <-]. order_facts. repeat split; nra.
Qed.

Lemma itc_value_between_zero_and_capex_witness :
  exists v,
    calc_itc_value 25000 ITC_RATE = Ok v /\
    0 <= v /\ v <= 25000 /\ - (25000) + v <= 0.
Proof.
  eexists. split; [vm_compute; reflexivity |].
  apply (itc_value_between_zero_and_capex 25000 ITC_RATE). vm_compute. reflexivity.
Defined.

(** X5: without escalation the price is flat: a price returned for an
    escalation of 0 is the base price, whatever the year. *)
Theorem price_is_flat_without_escalation (p : Q) (y : Z) (v : Q) :
  electricity_price_for_year p y 0 = Ok v -> v == p.
Proof.
  intros H. apply electricity_price_for_year_inv in H as (_ & _ & _ & ->).
  change (1 + 0) with 1. rewrite Qpower_1. apply Qmult_1_r.
Qed.

Lemma price_is_flat_without_escalation_witness :
  exists v, electricity_price_for_year 0.20 25 0 = Ok v /\ v == 0.20.
Proof.
  eexists. split; [vm_compute; reflexivity |].
  apply (price_is_flat_without_escalation 0.20 25). vm_compute. reflexivity.
Defined.

(** ** The schedule builder, further *)

(** The builder is its checks, in order, followed by the loop. *)
Lemma build_cashflow_schedule_loop
    (size price : Q) (years : Z) (cpw itc gen esc om : Q)
    (table : DataFrame) (series : list Q) :
  build_cashflow_schedule size price years cpw itc gen esc om = Ok (table, series)
  <->
  (0 < years)%Z /\ 0 < price /\ 0 < cpw /\ 0 <= cpw * (size * 1000) /\
  0 <= itc <= 1 /\ 0 < gen /\ 0 <= om /\
  exists st,
    for_each (year_body price esc (size * gen) (size * om))
      (range 1 (years + 1))
      (year0_state (cpw * (size * 1000)) (cpw * (size * 1000) * itc)) = Ok st /\
    table = rows st /\ series = cashflows st.
Proof.
  unfold build_cashflow_schedule, calc_upfront_capex, calc_itc_value,
    calc_annual_generation_kwh, annual_om_cost.
  split.
  - destruct (years <=? 0)%Z eqn:Ey; [discriminate |].
    destruct (Qleb price 0) eqn:Ep; [discriminate |].
    destruct (Qleb cpw 0) eqn:Ec; cbn [bind]; [discriminate |].
    destruct (Qltb (cpw * (size * 1000)) 0) eqn:Ecap; [discriminate |].
    destruct (Qleb 0 itc) eqn:Ei0; cbn [andb negb]; [| discriminate].
    destruct (Qleb itc 1) eqn:Ei1; cbn [andb negb bind]; [| discriminate].
    destruct (Qleb gen 0) eqn:Eg; cbn [bind]; [discriminate |].
    destruct (Qltb om 0) eqn:Eo; cbn [bind]; [discriminate |].
    fold (year0_state (cpw * (size * 1000)) (cpw * (size * 1000) * itc)).
    destruct (for_each _ _ _) as [st |] eqn:Hloop; cbn [bind]; [| discriminate].
    intros [= <- <-]. order_facts.
    split; [lia |]. do 3 (split; [assumption |]).
    split; [split; assumption |]. do 2 (split; [assumption |]).
    exists st. repeat split.
  - intros (Hy & Hp & Hc & Hcap & [Hi0 Hi1] & Hg & Ho & st & Hloop & -> & ->).
    destruct (years <=? 0)%Z eqn:Ey; [order_facts; lia |].
    destruct (Qleb price 0) eqn:Ep; [order_facts; lra |].
    destruct (Qleb cpw 0) eqn:Ec; cbn [bind]; [order_facts; lra |].
    destruct (Qltb (cpw * (size * 1000)) 0) eqn:Ecap; [order_facts; lra |].
    apply Qleb_true in Hi0, Hi1. rewrite Hi0, Hi1. cbn [andb negb bind].
    destruct (Qleb gen 0) eqn:Eg; cbn [bind]; [order_facts; lra |].
    destruct (Qltb om 0) eqn:Eo; cbn [bind]; [order_facts; lra |].
    fold (year0_state (cpw * (size * 1000)) (cpw * (size * 1000) * itc)).
    rewrite Hloop. reflexivity.
Qed.

Lemma range_cons (lo hi : Z) :
  (lo < hi)%Z -> range lo hi = lo :: range (lo + 1) hi.
Proof.
  intros H. unfold range.
  replace (Z.to_nat (hi - lo)) with (S (Z.to_nat (hi - (lo + 1)))) by lia.
  cbn [seq map]. f_equal; [lia |].
  rewrite <- seq_shift, map_map. apply map_ext. intros i. lia.
Qed.

Lemma seq_add_start (k a n : nat) :
  seq (k + a) n = map (fun i => (k + i)%nat) (seq a n).
Proof.
  revert a. induction n as [| n IH]; intros a; [reflexivity |].
  cbn [seq map]. f_equal.
  replace (S (k + a)) with (k + S a)%nat by lia. apply IH.
Qed.

Lemma range_app (lo mid hi : Z) :
  (lo <= mid)%Z -> (mid <= hi)%Z -> range lo hi = range lo mid ++ range mid hi.
Proof.
  intros H1 H2. unfold range.
  replace (Z.to_nat (hi - lo))
    with (Z.to_nat (mid - lo) + Z.to_nat (hi - mid))%nat by lia.
  rewrite seq_app, map_app. f_equal.
  replace (0 + Z.to_nat (mid - lo))%nat with (Z.to_nat (mid - lo) + 0)%nat by lia.
  rewrite seq_add_start, map_map. apply map_ext. intros i. lia.
Qed.

Lemma for_each_app {S : Type} (body : S -> Z -> result S) (l1 l2 : list Z) (st : S) :
  for_each body (l1 ++ l2) st = (st1 <- for_each body l1 st ;; for_each body l2 st1).
Proof.
  revert st. induction l1 as [| y l1 IH]; intros st; [reflexivity |].
  simpl. destruct (body st y) as [s1 |]; [apply IH | reflexivity].
Qed.

(** Decides the next test of the goal from the hypotheses. *)
Ltac pass_test t :=
  let E := fresh "E" in
  destruct t eqn:E;
  [| exfalso; order_facts; solve [lia | lra | nra]].

Ltac fail_test t :=
  let E := fresh "E" in
  destruct t eqn:E;
  [exfalso; order_facts; solve [lia | lra | nra] |].

(** With a negative escalation the loop stops in its first iteration. *)
Lemma loop_rejects_negative_escalation
    (p e g om : Q) (years : Z) (st : LoopState) :
  (0 < years)%Z -> 0 < p -> e < 0 ->
  for_each (year_body p e g om) (range 1 (years + 1)) st
    = Raise (ValueError "escalation must be >= 0.").
Proof.
  intros Hy Hp He. rewrite range_cons by lia. cbn [for_each].
  unfold year_body, electricity_price_for_year.
  fail_test (Qleb p 0). fail_test (1 <? 1)%Z. pass_test (Qltb e 0).
  reflexivity.
Qed.

(** With a valid base price and year, the price formula can only refuse the
    escalation or overflow. *)
Lemma price_raises_only (p : Q) (y : Z) (e : Q) (ex : exn) :
  0 < p -> (1 <= y)%Z ->
  electricity_price_for_year p y e = Raise ex ->
  ex = ValueError "escalation must be >= 0." \/
  ex = OverflowError "(34, 'Numerical result out of range')".
Proof.
  intros Hp Hy. unfold electricity_price_for_year, float_pow.
  fail_test (Qleb p 0). fail_test (y <? 1)%Z.
  destruct (Qltb e 0); [intros [= <-]; now left |].
  destruct (Qleb FLOAT_OVERFLOW ((1 + e) ^ (y - 1))); cbn [bind];
    [intros [= <-]; now right | discriminate].
Qed.

Lemma loop_raises_only (p e g om : Q) (l : list Z) :
  0 < p -> (forall y, In y l -> (1 <= y)%Z) ->
  forall st ex,
  for_each (year_body p e g om) l st = Raise ex ->
  ex = ValueError "escalation must be >= 0." \/
  ex = OverflowError "(34, 'Numerical result out of range')".
Proof.
  intros Hp. induction l as [| y0 l IH]; intros Hyears st ex H.
  - discriminate.
  - cbn [for_each] in H. unfold year_body at 1 in H.
    destruct (electricity_price_for_year p y0 e) as [v | e0] eqn:Ev;
      cbn [bind] in H.
    + apply (IH (fun z Hz => Hyears z (or_intror Hz)) _ _ H).
    + injection H as <-.
      apply (price_raises_only p y0 e e0 Hp (Hyears y0 (or_introl eq_refl)) Ev).
Qed.

(** A returned schedule tells that every argument was in its range. *)
Lemma returned_schedule_valid
    (size price : Q) (years : Z) (cpw itc gen esc om : Q)
    (table : DataFrame) (series : list Q) :
  build_cashflow_schedule size price years cpw itc gen esc om = Ok (table, series) ->
  (0 < years)%Z /\ 0 < price /\ 0 <= size /\ 0 < cpw /\ 0 <= itc <= 1 /\
  0 < gen /\ 0 <= esc /\ 0 <= om.
Proof.
  intros Hb.
  apply build_cashflow_schedule_loop in Hb
    as (Hy & Hp & Hc & Hcap & Hi & Hg & Ho & st & Hloop & _).
  repeat (split; [assumption || nra |]). split; [| exact Ho].
  destruct (Qlt_le_dec esc 0) as [Hneg | Hok]; [| exact Hok].
  rewrite loop_rejects_negative_escalation in Hloop by assumption.
  discriminate.
Qed.

(** X6: a returned schedule tells that every check passed: the horizon, the
    base price, the cost per watt and the yield are > 0, the capex
    [capex_per_watt * (size * 1000)], the escalation and the O&M cost are
    >= 0, and the ITC rate is in [0, 1]. *)
Theorem returned_schedule_means_valid_arguments
    (size price : Q) (years : Z) (cpw itc gen esc om : Q)
    (table : DataFrame) (series : list Q) :
  build_cashflow_schedule size price years cpw itc gen esc om = Ok (table, series) ->
  (0 < years)%Z /\ 0 < price /\ 0 < cpw /\ 0 <= cpw * (size * 1000) /\
  0 <= itc <= 1 /\ 0 < gen /\ 0 <= esc /\ 0 <= om.
Proof.
  intros Hb.
  apply build_cashflow_schedule_loop in Hb
    as (Hy & Hp & Hc & Hcap & Hi & Hg & Ho & st & Hloop & _).
  do 6 (split; [assumption |]). split; [| exact Ho].
  destruct (Qlt_le_dec esc 0) as [Hneg | Hok]; [| exact Hok].
  rewrite loop_rejects_negative_escalation in Hloop by assumption.
  discriminate.
Qed.

Lemma returned_schedule_means_valid_arguments_witness :
  exists table series,
    build_default 10 0.20 8 = Ok (table, series) /\
    (0 < 8)%Z /\ 0 < 0.20 /\ 0 < CAPEX_PER_WATT /\
    0 <= CAPEX_PER_WATT * (10 * 1000) /\
    0 <= ITC_RATE <= 1 /\ 0 < GEN_KWH_PER_KW_YEAR /\ 0 <= PRICE_ESCALATION /\
    0 <= OM_PER_KW_YEAR.
Proof.
  eexists. eexists. split; [vm_compute; reflexivity |].
  eapply (returned_schedule_means_valid_arguments 10 0.20 8 CAPEX_PER_WATT
            ITC_RATE GEN_KWH_PER_KW_YEAR PRICE_ESCALATION OM_PER_KW_YEAR).
  vm_compute. reflexivity.
Defined.

(** X7: which check fails.  The builder's checks run in a fixed order, and the
    first one that fails gives the message: horizon, base price, cost per watt,
    sign of the capex [capex_per_watt * (size * 1000)], ITC rate, yield, O&M
    cost, and last the escalation, which only the first pass of the loop
    tests. *)
Theorem builder_error_table
    (size price : Q) (years : Z) (cpw itc gen esc om : Q) :
  ((years <= 0)%Z ->
   build_cashflow_schedule size price years cpw itc gen esc om
     = Raise (ValueError "years must be > 0.")) /\
  ((0 < years)%Z -> price <= 0 ->
   build_cashflow_schedule size price years cpw itc gen esc om
     = Raise (ValueError "base_price_per_kwh must be > 0.")) /\
  ((0 < years)%Z -> 0 < price -> cpw <= 0 ->
   build_cashflow_schedule size price years cpw itc gen esc om
     = Raise (ValueError "capex_per_watt must be > 0.")) /\
  ((0 < years)%Z -> 0 < price -> 0 < cpw -> cpw * (size * 1000) < 0 ->
   build_cashflow_schedule size price years cpw itc gen esc om
     = Raise (ValueError "capex must be >= 0.")) /\
  ((0 < years)%Z -> 0 < price -> 0 < cpw -> 0 <= cpw * (size * 1000) ->
   itc < 0 \/ 1 < itc ->
   build_cashflow_schedule size price years cpw itc gen esc om
     = Raise (ValueError "itc_rate must be between 0 and 1.")) /\
  ((0 < years)%Z -> 0 < price -> 0 < cpw -> 0 <= cpw * (size * 1000) ->
   0 <= itc <= 1 -> gen <= 0 ->
   build_cashflow_schedule size price years cpw itc gen esc om
     = Raise (ValueError "gen_kwh_per_kw_year must be > 0.")) /\
  ((0 < years)%Z -> 0 < price -> 0 < cpw -> 0 <= cpw * (size * 1000) ->
   0 <= itc <= 1 -> 0 < gen -> om < 0 ->
   build_cashflow_schedule size price years cpw itc gen esc om
     = Raise (ValueError "om_per_kw_year must be >= 0.")) /\
  ((0 < years)%Z -> 0 < price -> 0 < cpw -> 0 <= cpw * (size * 1000) ->
   0 <= itc <= 1 -> 0 < gen -> 0 <= om -> esc < 0 ->
   build_cashflow_schedule size price years cpw itc gen esc om
     = Raise (ValueError "escalation must be >= 0.")).
Proof.
  unfold build_cashflow_schedule, calc_upfront_capex, calc_itc_value,
    calc_annual_generation_kwh, annual_om_cost.
  repeat split; intros.
  - pass_test (years <=? 0)%Z. reflexivity.
  - fail_test (years <=? 0)%Z. pass_test (Qleb price 0). reflexivity.
  - fail_test (years <=? 0)%Z. fail_test (Qleb price 0).
    pass_test (Qleb cpw 0). reflexivity.
  - fail_test (years <=? 0)%Z. fail_test (Qleb price 0).
    fail_test (Qleb cpw 0). cbn [bind].
    pass_test (Qltb (cpw * (size * 1000)) 0). reflexivity.
  - fail_test (years <=? 0)%Z. fail_test (Qleb price 0).
    fail_test (Qleb cpw 0). cbn [bind].
    fail_test (Qltb (cpw * (size * 1000)) 0).
    destruct (Qleb 0 itc) eqn:E3; destruct (Qleb itc 1) eqn:E4;
      cbn [andb negb bind]; try reflexivity.
    exfalso. order_facts. destruct H3; lra.
  - fail_test (years <=? 0)%Z. fail_test (Qleb price 0).
    fail_test (Qleb cpw 0). cbn [bind].
    fail_test (Qltb (cpw * (size * 1000)) 0).
    destruct H3. pass_test (Qleb 0 itc). pass_test (Qleb itc 1).
    cbn [andb negb bind]. pass_test (Qleb gen 0). reflexivity.
  - fail_test (years <=? 0)%Z. fail_test (Qleb price 0).
    fail_test (Qleb cpw 0). cbn [bind].
    fail_test (Qltb (cpw * (size * 1000)) 0).
    destruct H3. pass_test (Qleb 0 itc). pass_test (Qleb itc 1).
    cbn [andb negb bind]. fail_test (Qleb gen 0). cbn [bind].
    pass_test (Qltb om 0). reflexivity.
  - fail_test (years <=? 0)%Z. fail_test (Qleb price 0).
    fail_test (Qleb cpw 0). cbn [bind].
    fail_test (Qltb (cpw * (size * 1000)) 0).
    destruct H3. pass_test (Qleb 0 itc). pass_test (Qleb itc 1).
    cbn [andb negb bind]. fail_test (Qleb gen 0). cbn [bind].
    fail_test (Qltb om 0). cbn [bind].
    rewrite loop_rejects_negative_escalation by assumption. reflexivity.
Qed.

Lemma builder_error_table_witness :
  build_cashflow_schedule 10 0.20 0 CAPEX_PER_WATT ITC_RATE GEN_KWH_PER_KW_YEAR
    PRICE_ESCALATION OM_PER_KW_YEAR = Raise (ValueError "years must be > 0.") /\
  build_cashflow_schedule 10 0 25 CAPEX_PER_WATT ITC_RATE GEN_KWH_PER_KW_YEAR
    PRICE_ESCALATION OM_PER_KW_YEAR
    = Raise (ValueError "base_price_per_kwh must be > 0.") /\
  build_cashflow_schedule 10 0.20 25 0 ITC_RATE GEN_KWH_PER_KW_YEAR
    PRICE_ESCALATION OM_PER_KW_YEAR
    = Raise (ValueError "capex_per_watt must be > 0.") /\
  build_cashflow_schedule (-1) 0.20 25 CAPEX_PER_WATT ITC_RATE GEN_KWH_PER_KW_YEAR
    PRICE_ESCALATION OM_PER_KW_YEAR = Raise (ValueError "capex must be >= 0.") /\
  build_cashflow_schedule 10 0.20 25 CAPEX_PER_WATT 1.5 GEN_KWH_PER_KW_YEAR
    PRICE_ESCALATION OM_PER_KW_YEAR
    = Raise (ValueError "itc_rate must be between 0 and 1.") /\
  build_cashflow_schedule 10 0.20 25 CAPEX_PER_WATT ITC_RATE 0
    PRICE_ESCALATION OM_PER_KW_YEAR
    = Raise (ValueError "gen_kwh_per_kw_year must be > 0.") /\
  build_cashflow_schedule 10 0.20 25 CAPEX_PER_WATT ITC_RATE GEN_KWH_PER_KW_YEAR
    PRICE_ESCALATION (-1) = Raise (ValueError "om_per_kw_year must be >= 0.") /\
  build_cashflow_schedule 10 0.20 25 CAPEX_PER_WATT ITC_RATE GEN_KWH_PER_KW_YEAR
    (-0.01) OM_PER_KW_YEAR = Raise (ValueError "escalation must be >= 0.").
Proof.
  assert (Hitc : 0 <= ITC_RATE <= 1) by (split; discriminate).
  refine (conj _ (conj _ (conj _ (conj _ (conj _ (conj _ (conj _ _))))))).
  - apply (proj1 (builder_error_table 10 0.20 0 CAPEX_PER_WATT ITC_RATE
                    GEN_KWH_PER_KW_YEAR PRICE_ESCALATION OM_PER_KW_YEAR)). lia.
  - apply (proj1 (proj2 (builder_error_table 10 0 25 CAPEX_PER_WATT ITC_RATE
                    GEN_KWH_PER_KW_YEAR PRICE_ESCALATION OM_PER_KW_YEAR)));
      [lia | discriminate].
  - apply (proj1 (proj2 (proj2 (builder_error_table 10 0.20 25 0 ITC_RATE
                    GEN_KWH_PER_KW_YEAR PRICE_ESCALATION OM_PER_KW_YEAR))));
      [lia | reflexivity | discriminate].
  - apply (proj1 (proj2 (proj2 (proj2 (builder_error_table (-1) 0.20 25
                    CAPEX_PER_WATT ITC_RATE GEN_KWH_PER_KW_YEAR PRICE_ESCALATION
                    OM_PER_KW_YEAR)))));
      [lia | reflexivity | reflexivity | reflexivity].
  - apply (proj1 (proj2 (proj2 (proj2 (proj2 (builder_error_table 10 0.20 25
                    CAPEX_PER_WATT 1.5 GEN_KWH_PER_KW_YEAR PRICE_ESCALATION
                    OM_PER_KW_YEAR))))));
      [lia | reflexivity | reflexivity | discriminate | right; reflexivity].
  - apply (proj1 (proj2 (proj2 (proj2 (proj2 (proj2 (builder_error_table 10 0.20
                    25 CAPEX_PER_WATT ITC_RATE 0 PRICE_ESCALATION
                    OM_PER_KW_YEAR)))))));
      [lia | reflexivity | reflexivity | discriminate | exact Hitc | discriminate].
  - apply (proj1 (proj2 (proj2 (proj2 (proj2 (proj2 (proj2 (builder_error_table
                    10 0.20 25 CAPEX_PER_WATT ITC_RATE GEN_KWH_PER_KW_YEAR
                    PRICE_ESCALATION (-1)))))))));
      [lia | reflexivity | reflexivity | discriminate | exact Hitc
       | reflexivity | reflexivity].
  - apply (proj2 (proj2 (proj2 (proj2 (proj2 (proj2 (proj2 (builder_error_table
                    10 0.20 25 CAPEX_PER_WATT ITC_RATE GEN_KWH_PER_KW_YEAR
                    (-0.01) OM_PER_KW_YEAR))))))));
      [lia | reflexivity | reflexivity | discriminate | exact Hitc
       | reflexivity | discriminate | reflexivity].
Defined.

(** X8: whatever the arguments, an exception of the builder is one of the
    eight ValueErrors of its checks or the OverflowError of the power.  The
    price formula's own checks of the base price and of the year never fire
    from the builder, which tests the base price first and asks for years from
    1 on only. *)
Theorem builder_raises_only_these
    (size price : Q) (years : Z) (cpw itc gen esc om : Q) (e : exn) :
  build_cashflow_schedule size price years cpw itc gen esc om = Raise e ->
  In e [ ValueError "years must be > 0.";
         ValueError "base_price_per_kwh must be > 0.";
         ValueError "capex_per_watt must be > 0.";
         ValueError "capex must be >= 0.";
         ValueError "itc_rate must be between 0 and 1.";
         ValueError "gen_kwh_per_kw_year must be > 0.";
         ValueError "om_per_kw_year must be >= 0.";
         ValueError "escalation must be >= 0.";
         OverflowError "(34, 'Numerical result out of range')" ].
Proof.
  unfold build_cashflow_schedule, calc_upfront_capex, calc_itc_value,
    calc_annual_generation_kwh, annual_om_cost.
  destruct (years <=? 0)%Z eqn:Ey; [intros [= <-]; simpl; tauto |].
  destruct (Qleb price 0) eqn:Ep; [intros [= <-]; simpl; tauto |].
  destruct (Qleb cpw 0); cbn [bind]; [intros [= <-]; simpl; tauto |].
  destruct (Qltb (cpw * (size * 1000)) 0); [intros [= <-]; simpl; tauto |].
  destruct (Qleb 0 itc && Qleb itc 1); cbn [negb bind];
    [| intros [= <-]; simpl; tauto].
  destruct (Qleb gen 0); cbn [bind]; [intros [= <-]; simpl; tauto |].
  destruct (Qltb om 0); cbn [bind]; [intros [= <-]; simpl; tauto |].
  order_facts.
  match goal with
  | |- context [for_each ?b ?l ?s0] =>
      destruct (for_each b l s0) as [st | ex] eqn:Hloop; cbn [bind];
        [discriminate |]
  end.
  intros [= <-].
  apply loop_raises_only in Hloop as [-> | ->]; [simpl; tauto | simpl; tauto | |].
  - exact Ep.
  - intros y Hin. apply range_In in Hin. lia.
Qed.

Lemma builder_raises_only_these_witness :
  exists e,
    build_cashflow_schedule 10 0.20 28746 CAPEX_PER_WATT ITC_RATE
      GEN_KWH_PER_KW_YEAR PRICE_ESCALATION OM_PER_KW_YEAR = Raise e /\
    In e [ ValueError "years must be > 0.";
           ValueError "base_price_per_kwh must be > 0.";
           ValueError "capex_per_watt must be > 0.";
           ValueError "capex must be >= 0.";
           ValueError "itc_rate must be between 0 and 1.";
           ValueError "gen_kwh_per_kw_year must be > 0.";
           ValueError "om_per_kw_year must be >= 0.";
           ValueError "escalation must be >= 0.";
           OverflowError "(34, 'Numerical result out of range')" ].
Proof.
  assert (Hraise : build_cashflow_schedule 10 0.20 28746 CAPEX_PER_WATT
                     ITC_RATE GEN_KWH_PER_KW_YEAR PRICE_ESCALATION
                     OM_PER_KW_YEAR
                   = Raise (OverflowError "(34, 'Numerical result out of range')")).
  { apply build_cashflow_schedule_overflows;
      [ lia | reflexivity | discriminate | reflexivity | split; discriminate
      | reflexivity | discriminate | discriminate
      | apply default_factor_overflows; lia ]. }
  exists (OverflowError "(34, 'Numerical result out of range')").
  refine (conj Hraise _).
  exact (builder_raises_only_these 10 0.20 28746 CAPEX_PER_WATT ITC_RATE
           GEN_KWH_PER_KW_YEAR PRICE_ESCALATION OM_PER_KW_YEAR _ Hraise).
Defined.

(** ** The rows of the schedule *)

(** Every row the loop appends is the one the formulas give for its year. *)
Lemma loop_rows (p e g om : Q) (years : Z) (st0 st : LoopState) :
  List.length (rows st0) = 1%nat ->
  for_each (year_body p e g om) (range 1 (years + 1)) st0 = Ok st ->
  forall j r, (1 <= j)%nat -> nth_error (rows st) j = Some r ->
    year r = Z.of_nat j /\
    price_per_kwh r = Some (p * (1 + e) ^ (Z.of_nat j - 1)) /\
    generation_kwh r = g /\
    om_cost r = om /\
    net_cashflow r = g * (p * (1 + e) ^ (Z.of_nat j - 1)) - om.
Proof.
  intros Hlen0 Hloop.
  refine (proj2 (for_each_invariant _
    (fun i s =>
       List.length (rows s) = S i /\
       forall j r, (1 <= j)%nat -> nth_error (rows s) j = Some r ->
         year r = Z.of_nat j /\
         price_per_kwh r = Some (p * (1 + e) ^ (Z.of_nat j - 1)) /\
         generation_kwh r = g /\
         om_cost r = om /\
         net_cashflow r = g * (p * (1 + e) ^ (Z.of_nat j - 1)) - om)
    _ st0 st _ _ Hloop)).
  - intros i y s s1 Hy [Hlen Hrows] Hb.
    apply range_nth in Hy.
    apply year_body_inv in Hb as (price & Hprice & ->).
    apply electricity_price_for_year_inv in Hprice as (_ & _ & _ & ->).
    cbn [rows]. split; [rewrite length_app, Hlen; simpl; lia |].
    intros j r Hj Hr.
    destruct (Nat.lt_ge_cases j (List.length (rows s))) as [Hlt | Hge].
    + rewrite nth_error_app1 in Hr by exact Hlt. now apply Hrows.
    + rewrite nth_error_app2 in Hr by exact Hge.
      destruct (j - List.length (rows s))%nat as [| k] eqn:Ek; simpl in Hr.
      * injection Hr as <-. cbn.
        assert (Hyj : y = Z.of_nat j) by lia. rewrite Hyj.
        repeat split.
      * destruct k; discriminate.
  - split; [exact Hlen0 |]. intros j r Hj Hr.
    assert (Hlt : (j < List.length (rows st0))%nat)
      by (apply nth_error_Some; congruence).
    lia.
Qed.

(** The power of every year that has a row was in the range of the floats. *)
Lemma loop_rows_fit (p e g om : Q) (years : Z) (st0 st : LoopState) :
  List.length (rows st0) = 1%nat ->
  for_each (year_body p e g om) (range 1 (years + 1)) st0 = Ok st ->
  forall j r, (1 <= j)%nat -> nth_error (rows st) j = Some r ->
    (1 + e) ^ (Z.of_nat j - 1) < FLOAT_OVERFLOW.
Proof.
  intros Hlen0 Hloop.
  refine (proj2 (for_each_invariant _
    (fun i s =>
       List.length (rows s) = S i /\
       forall j r, (1 <= j)%nat -> nth_error (rows s) j = Some r ->
         (1 + e) ^ (Z.of_nat j - 1) < FLOAT_OVERFLOW)
    _ st0 st _ _ Hloop)).
  - intros i y s s1 Hy [Hlen Hrows] Hb.
    apply range_nth in Hy.
    apply year_body_inv in Hb as (price & Hprice & ->).
    apply electricity_price_for_year_fits in Hprice.
    cbn [rows]. split; [rewrite length_app, Hlen; simpl; lia |].
    intros j r Hj Hr.
    destruct (Nat.lt_ge_cases j (List.length (rows s))) as [Hlt | Hge].
    + rewrite nth_error_app1 in Hr by exact Hlt. now apply (Hrows j r).
    + rewrite nth_error_app2 in Hr by exact Hge.
      destruct (j - List.length (rows s))%nat as [| k] eqn:Ek; simpl in Hr.
      * assert (Hyj : y = Z.of_nat j) by lia. rewrite <- Hyj. exact Hprice.
      * destruct k; discriminate.
  - split; [exact Hlen0 |]. intros j r Hj Hr.
    assert (Hlt : (j < List.length (rows st0))%nat)
      by (apply nth_error_Some; congruence).
    lia.
Qed.

(** X9: the rows of a returned schedule are the ones the scalar formulas
    give.  Row 0 carries no price, no generation and no O&M cost, and its net
    cash flow is the tax credit minus the capex, never positive; the row of
    every year t >= 1 carries the escalated price of year t, the annual
    generation, the annual O&M cost, and as net cash flow the generation at
    that price minus the O&M cost. *)
Theorem schedule_rows_follow_the_formulas
    (size price : Q) (years : Z) (cpw itc gen esc om : Q)
    (table : DataFrame) (series : list Q) :
  build_cashflow_schedule size price years cpw itc gen esc om = Ok (table, series) ->
  (exists r0 capex credit,
     nth_error table 0 = Some r0 /\
     calc_upfront_capex size cpw = Ok capex /\
     calc_itc_value capex itc = Ok credit /\
     year r0 = 0%Z /\ price_per_kwh r0 = None /\
     generation_kwh r0 = 0 /\ om_cost r0 = 0 /\
     net_cashflow r0 = - capex + credit /\
     net_cashflow r0 <= 0) /\
  (forall t r, (1 <= t)%nat -> nth_error table t = Some r ->
     exists v,
       year r = Z.of_nat t /\
       electricity_price_for_year price (Z.of_nat t) esc = Ok v /\
       price_per_kwh r = Some v /\
       calc_annual_generation_kwh size gen = Ok (generation_kwh r) /\
       annual_om_cost size om = Ok (om_cost r) /\
       net_cashflow r = generation_kwh r * v - om_cost r).
Proof.
  intros Hb. assert (Hb' := Hb).
  apply build_cashflow_schedule_loop in Hb
    as (Hy & Hp & Hc & Hcap & Hi & Hg & Ho & st & Hloop & -> & ->).
  assert (He : 0 <= esc).
  { destruct (Qlt_le_dec esc 0) as [Hneg | Hok]; [| exact Hok].
    rewrite loop_rejects_negative_escalation in Hloop by assumption.
    discriminate. }
  split.
  - apply build_cashflow_schedule_inv in Hb'
      as (_ & _ & st' & r0 & Hst & _ & _ & Hhd & Hy0 & Hp0 & Hn0 & _).
    assert (H0 : nth_error (rows st) 0 = Some r0)
      by (destruct (rows st); [discriminate | exact Hhd]).
    assert (Hrow0 : nth_error (rows st) 0
              = nth_error (rows (year0_state (cpw * (size * 1000))
                                   (cpw * (size * 1000) * itc))) 0).
    { refine (for_each_invariant _
        (fun _ s => nth_error (rows s) 0
           = nth_error (rows (year0_state (cpw * (size * 1000))
                                (cpw * (size * 1000) * itc))) 0)
        _ _ st _ _ Hloop); [| reflexivity].
      intros i y s s1 _ Hs Hbody.
      apply year_body_inv in Hbody as (pr & _ & ->). cbn [rows].
      rewrite <- Hs. destruct (rows s); [| reflexivity].
      simpl in Hs. discriminate. }
    rewrite H0 in Hrow0. simpl in Hrow0. injection Hrow0 as ->.
    exists {| year := 0; price_per_kwh := None; generation_kwh := 0; om_cost := 0;
              net_cashflow := - (cpw * (size * 1000)) + cpw * (size * 1000) * itc;
              cumulative_cashflow :=
                0 + (- (cpw * (size * 1000)) + cpw * (size * 1000) * itc) |},
           (cpw * (size * 1000)), (cpw * (size * 1000) * itc).
    split; [exact H0 |].
    split; [now apply calc_upfront_capex_ok |].
    split; [now apply calc_itc_value_ok |].
    cbn. repeat split. destruct Hi. nra.
  - intros t r Ht Hr.
    destruct (loop_rows price esc (size * gen) (size * om) years
                (year0_state (cpw * (size * 1000)) (cpw * (size * 1000) * itc))
                st eq_refl Hloop t r Ht Hr)
      as (Hyear & Hprice & Hgen & Hom & Hnet).
    exists (price * (1 + esc) ^ (Z.of_nat t - 1)).
    split; [exact Hyear |].
    split.
    { apply electricity_price_for_year_ok; [exact Hp | lia | exact He |].
      exact (loop_rows_fit price esc (size * gen) (size * om) years
               (year0_state (cpw * (size * 1000)) (cpw * (size * 1000) * itc))
               st eq_refl Hloop t r Ht Hr). }
    split; [exact Hprice |].
    split; [rewrite Hgen; now apply calc_annual_generation_kwh_ok |].
    split; [rewrite Hom; now apply annual_om_cost_ok |].
    rewrite Hgen, Hom. exact Hnet.
Qed.

Lemma schedule_rows_follow_the_formulas_witness :
  exists table series,
    build_default 10 0.20 8 = Ok (table, series) /\
    (exists r0 capex credit,
       nth_error table 0 = Some r0 /\
       calc_upfront_capex 10 CAPEX_PER_WATT = Ok capex /\
       calc_itc_value capex ITC_RATE = Ok credit /\
       year r0 = 0%Z /\ price_per_kwh r0 = None /\
       generation_kwh r0 = 0 /\ om_cost r0 = 0 /\
       net_cashflow r0 = - capex + credit /\
       net_cashflow r0 <= 0) /\
    (forall t r, (1 <= t)%nat -> nth_error table t = Some r ->
       exists v,
         year r = Z.of_nat t /\
         electricity_price_for_year 0.20 (Z.of_nat t) PRICE_ESCALATION = Ok v /\
         price_per_kwh r = Some v /\
         calc_annual_generation_kwh 10 GEN_KWH_PER_KW_YEAR
           = Ok (generation_kwh r) /\
         annual_om_cost 10 OM_PER_KW_YEAR = Ok (om_cost r) /\
         net_cashflow r = generation_kwh r * v - om_cost r).
Proof.
  eexists. eexists. split; [vm_compute; reflexivity |].
  eapply (schedule_rows_follow_the_formulas 10 0.20 8 CAPEX_PER_WATT ITC_RATE
            GEN_KWH_PER_KW_YEAR PRICE_ESCALATION OM_PER_KW_YEAR).
  vm_compute. reflexivity.
Defined.

(** X10: the cash-flow series handed to the IRR derivation is the net cash
    flow column of the table, in the order of the rows, year 0 first. *)
Theorem series_is_the_net_cashflow_column
    (size price : Q) (years : Z) (cpw itc gen esc om : Q)
    (table : DataFrame) (series : list Q) :
  build_cashflow_schedule size price years cpw itc gen esc om = Ok (table, series) ->
  series = map net_cashflow table.
Proof.
  intros Hb.
  apply build_cashflow_schedule_inv in Hb
    as (_ & _ & st & r0 & -> & -> & (_ & Hcf & _) & _).
  now rewrite Hcf.
Qed.

Lemma series_is_the_net_cashflow_column_witness :
  exists table series,
    build_default 10 0.20 8 = Ok (table, series) /\
    series = map net_cashflow table.
Proof.
  eexists. eexists. split; [vm_compute; reflexivity |].
  eapply (series_is_the_net_cashflow_column 10 0.20 8 CAPEX_PER_WATT ITC_RATE
            GEN_KWH_PER_KW_YEAR PRICE_ESCALATION OM_PER_KW_YEAR).
  vm_compute. reflexivity.
Defined.

(** What a returned schedule tells, in one place. *)
Lemma schedule_facts
    (size price : Q) (years : Z) (cpw itc gen esc om : Q)
    (table : DataFrame) (series : list Q) :
  build_cashflow_schedule size price years cpw itc gen esc om = Ok (table, series) ->
  0 < price /\ 0 <= size /\ 0 < gen /\ 0 <= esc /\
  List.length table = S (Z.to_nat years) /\
  (forall j r, nth_error table j = Some r -> year r = Z.of_nat j) /\
  (forall t rp r,
      nth_error table t = Some rp -> nth_error table (S t) = Some r ->
      cumulative_cashflow r = cumulative_cashflow rp + net_cashflow r) /\
  (forall t r, (1 <= t)%nat -> nth_error table t = Some r ->
      net_cashflow r
        = size * gen * (price * (1 + esc) ^ (Z.of_nat t - 1)) - size * om).
Proof.
  intros Hb.
  destruct (returned_schedule_valid _ _ _ _ _ _ _ _ _ _ Hb)
    as (Hy & Hp & Hs & Hc & Hi & Hg & He & Ho).
  assert (Hb' := Hb).
  apply build_cashflow_schedule_inv in Hb
    as (_ & _ & st & r0 & -> & _ & (Hlen & _ & Hyear & _ & Hstep) & _).
  apply build_cashflow_schedule_loop in Hb'
    as (_ & _ & _ & _ & _ & _ & _ & st' & Hloop & Hrows & _).
  do 4 (split; [assumption |]).
  split; [exact Hlen |]. split; [exact Hyear |]. split; [exact Hstep |].
  intros t r Ht Hr. rewrite Hrows in Hr.
  apply (loop_rows price esc (size * gen) (size * om) years
           (year0_state (cpw * (size * 1000)) (cpw * (size * 1000) * itc))
           st' eq_refl Hloop t r Ht Hr).
Qed.

(** The net cash flow formula grows with the year. *)
Lemma net_formula_mono (g p e om : Q) (t1 t2 : nat) :
  0 <= g -> 0 < p -> 0 <= e -> (t1 <= t2)%nat ->
  p * (1 + e) ^ (Z.of_nat t1 - 1) <= p * (1 + e) ^ (Z.of_nat t2 - 1) /\
  g * (p * (1 + e) ^ (Z.of_nat t1 - 1)) - om
    <= g * (p * (1 + e) ^ (Z.of_nat t2 - 1)) - om.
Proof.
  intros Hg Hp He Ht.
  assert (Hf : (1 + e) ^ (Z.of_nat t1 - 1) <= (1 + e) ^ (Z.of_nat t2 - 1))
    by (apply escalation_factor_mono; [exact He | lia]).
  assert (Hpf : p * (1 + e) ^ (Z.of_nat t1 - 1) <= p * (1 + e) ^ (Z.of_nat t2 - 1))
    by (apply Qmult_le_l; assumption).
  split; [exact Hpf | nra].
Qed.

(** X11: for a size >= 0, from year 1 on the price and the net cash flow never
    decrease from one year to a later one. *)
Theorem net_cashflows_never_decrease
    (size price : Q) (years : Z) (cpw itc gen esc om : Q)
    (table : DataFrame) (series : list Q) :
  0 <= size ->
  build_cashflow_schedule size price years cpw itc gen esc om = Ok (table, series) ->
  forall t1 t2 r1 r2, (1 <= t1)%nat -> (t1 <= t2)%nat ->
    nth_error table t1 = Some r1 -> nth_error table t2 = Some r2 ->
    net_cashflow r1 <= net_cashflow r2 /\
    (exists v1 v2, price_per_kwh r1 = Some v1 /\ price_per_kwh r2 = Some v2 /\
                   v1 <= v2).
Proof.
  intros Hs Hb t1 t2 r1 r2 H1 H12 Hr1 Hr2. assert (Hb' := Hb).
  apply schedule_facts in Hb as (Hp & _ & Hg & He & _ & _ & _ & Hnet).
  assert (Hsg : 0 <= size * gen) by nra.
  destruct (net_formula_mono (size * gen) price esc (size * om) t1 t2
              Hsg Hp He H12) as [Hprice Hflow].
  split.
  - rewrite (Hnet t1 r1 H1 Hr1), (Hnet t2 r2) by (lia || exact Hr2).
    exact Hflow.
  - apply build_cashflow_schedule_loop in Hb'
      as (_ & _ & _ & _ & _ & _ & _ & st & Hloop & -> & _).
    destruct (loop_rows price esc (size * gen) (size * om) years
                (year0_state (cpw * (size * 1000)) (cpw * (size * 1000) * itc))
                st eq_refl Hloop t1 r1 H1 Hr1) as (_ & Hv1 & _).
    destruct (loop_rows price esc (size * gen) (size * om) years
                (year0_state (cpw * (size * 1000)) (cpw * (size * 1000) * itc))
                st eq_refl Hloop t2 r2 ltac:(lia) Hr2) as (_ & Hv2 & _).
    eexists. eexists. split; [exact Hv1 |]. split; [exact Hv2 | exact Hprice].
Qed.

Lemma net_cashflows_never_decrease_witness :
  0 <= 10 /\
  exists table series,
    build_default 10 0.20 8 = Ok (table, series) /\
    forall t1 t2 r1 r2, (1 <= t1)%nat -> (t1 <= t2)%nat ->
      nth_error table t1 = Some r1 -> nth_error table t2 = Some r2 ->
      net_cashflow r1 <= net_cashflow r2 /\
      (exists v1 v2, price_per_kwh r1 = Some v1 /\ price_per_kwh r2 = Some v2 /\
                     v1 <= v2).
Proof.
  split; [discriminate |].
  eexists. eexists. split; [vm_compute; reflexivity |].
  eapply (net_cashflows_never_decrease 10 0.20 8 CAPEX_PER_WATT ITC_RATE
            GEN_KWH_PER_KW_YEAR PRICE_ESCALATION OM_PER_KW_YEAR);
    [discriminate | vm_compute; reflexivity].
Defined.

(** ** Payback on the builder's schedules *)

(** X12: a payback year Y >= 1 found on a schedule of the builder is a true
    break-even: from year Y to the end of the horizon the cumulative cash
    flow stays >= 0. *)
Theorem payback_is_a_break_even
    (size price : Q) (years : Z) (cpw itc gen esc om : Q)
    (table : DataFrame) (series : list Q) (Y : Z) :
  build_cashflow_schedule size price years cpw itc gen esc om = Ok (table, series) ->
  calc_payback_period_years table = Ok (Some Y) ->
  (1 <= Y)%Z ->
  forall t r, (Y <= Z.of_nat t)%Z -> nth_error table t = Some r ->
    0 <= cumulative_cashflow r.
Proof.
  intros Hb Hpb HY. assert (Hb' := Hb).
  apply schedule_facts in Hb as (Hp & Hs & Hg & He & Hlen & Hyear & Hstep & Hflow).
  assert (Hsg : 0 <= size * gen) by nra.
  destruct table as [| r0 rest]; [discriminate |].
  rewrite calc_payback_period_years_scan in Hpb.
  assert (Hpb' : first_non_negative (r0 :: rest) = Some Y) by congruence.
  pose proof (first_non_negative_spec (r0 :: rest)) as Hspec.
  rewrite Hpb' in Hspec. destruct Hspec as (i & ri & Hi & HYi & Hri & Hbefore).
  rewrite (Hyear i ri Hi) in HYi. subst Y.
  destruct i as [| i]; [lia |].
  assert (Hprev : exists rp, nth_error (r0 :: rest) i = Some rp).
  { destruct (nth_error (r0 :: rest) i) as [rp |] eqn:E; [now exists rp |].
    apply nth_error_None in E.
    assert (S i < List.length (r0 :: rest))%nat
      by (apply nth_error_Some; congruence).
    lia. }
  destruct Hprev as [rp Hrp].
  assert (Hnet : 0 < net_cashflow ri).
  { pose proof (Hbefore i rp (Nat.lt_succ_diag_r i) Hrp) as Hneg.
    pose proof (Hstep i rp ri Hrp Hi) as Hsum. rewrite Hsum in Hri. lra. }
  intros t. induction t as [| t IH]; intros r Ht Hr; [lia |].
  destruct (Nat.eq_dec t i) as [-> | Hne].
  - rewrite Hi in Hr. now injection Hr as <-.
  - assert (Hit : (S i <= t)%nat) by lia.
    destruct (nth_error (r0 :: rest) t) as [rt |] eqn:Et.
    2: { apply nth_error_None in Et.
         assert (S t < List.length (r0 :: rest))%nat
           by (apply nth_error_Some; congruence).
         lia. }
    pose proof (IH rt ltac:(lia) eq_refl) as Hrt.
    pose proof (Hstep t rt r Et Hr) as Hsum.
    pose proof (proj2 (net_formula_mono (size * gen) price esc (size * om)
                         (S i) (S t) Hsg Hp He ltac:(lia))) as Hle.
    rewrite <- (Hflow (S i) ri ltac:(lia) Hi) in Hle.
    rewrite <- (Hflow (S t) r ltac:(lia) Hr) in Hle.
    rewrite Hsum. lra.
Qed.

Lemma payback_is_a_break_even_witness :
  exists table series,
    build_default 10 0.20 8 = Ok (table, series) /\
    calc_payback_period_years table = Ok (Some 7%Z) /\
    forall t r, (7 <= Z.of_nat t)%Z -> nth_error table t = Some r ->
      0 <= cumulative_cashflow r.
Proof.
  eexists. eexists. split; [vm_compute; reflexivity |].
  split; [vm_compute; reflexivity |].
  eapply (payback_is_a_break_even 10 0.20 8 CAPEX_PER_WATT ITC_RATE
            GEN_KWH_PER_KW_YEAR PRICE_ESCALATION OM_PER_KW_YEAR);
    [vm_compute; reflexivity | vm_compute; reflexivity | lia].
Defined.

(** A payback in year 0 is no break-even in general: with an ITC rate of 1 the
    cumulative cash flow of year 0 is 0, and a price too low to cover the O&M
    cost makes it negative in year 1. *)
Example payback_in_year_0_can_be_undone :
  exists table series r1,
    build_cashflow_schedule 1 0.001 2 CAPEX_PER_WATT 1 GEN_KWH_PER_KW_YEAR
      PRICE_ESCALATION OM_PER_KW_YEAR = Ok (table, series) /\
    calc_payback_period_years table = Ok (Some 0%Z) /\
    nth_error table 1 = Some r1 /\ cumulative_cashflow r1 < 0.
Proof.
  do 3 eexists. split; [vm_compute; reflexivity |].
  split; [vm_compute; reflexivity |]. split; reflexivity.
Qed.

(** ** Longer horizons *)

(** The loop only appends. *)
Lemma loop_appends (p e g om : Q) (l : list Z) :
  forall st st',
  for_each (year_body p e g om) l st = Ok st' ->
  exists new_rows new_flows,
    rows st' = rows st ++ new_rows /\ cashflows st' = cashflows st ++ new_flows.
Proof.
  induction l as [| y l IH]; intros st st' H.
  - injection H as <-. exists [], []. now rewrite !app_nil_r.
  - simpl in H. destruct (year_body p e g om st y) as [s1 |] eqn:Hb;
      cbn [bind] in H; [| discriminate].
    apply year_body_inv in Hb as (price & _ & ->).
    destruct (IH _ _ H) as (nr & nf & Hr & Hf). cbn [rows cashflows] in Hr, Hf.
    eexists. eexists. rewrite Hr, Hf, <- !app_assoc. split; reflexivity.
Qed.

Lemma firstn_own_length {A : Type} (l l' : list A) :
  firstn (List.length l) (l ++ l') = l.
Proof.
  rewrite firstn_app, Nat.sub_diag, firstn_all. simpl. apply app_nil_r.
Qed.

(** A longer horizon extends the schedule of a shorter one. *)
Lemma longer_horizon_appends
    (size price : Q) (years years' : Z) (cpw itc gen esc om : Q)
    (table table' : DataFrame) (series series' : list Q) :
  (years <= years')%Z ->
  build_cashflow_schedule size price years cpw itc gen esc om = Ok (table, series) ->
  build_cashflow_schedule size price years' cpw itc gen esc om
    = Ok (table', series') ->
  exists new_rows new_flows,
    table' = table ++ new_rows /\ series' = series ++ new_flows.
Proof.
  intros Hle Hb Hb'.
  apply build_cashflow_schedule_loop in Hb
    as (Hy & _ & _ & _ & _ & _ & _ & st & Hloop & -> & ->).
  apply build_cashflow_schedule_loop in Hb'
    as (_ & _ & _ & _ & _ & _ & _ & st' & Hloop' & -> & ->).
  rewrite (range_app 1 (years + 1) (years' + 1)) in Hloop' by lia.
  rewrite for_each_app, Hloop in Hloop'. cbn [bind] in Hloop'.
  now apply loop_appends in Hloop'.
Qed.

(** X13: the schedule of a longer horizon starts with the schedule of the
    shorter one: with all other arguments equal, the table and the series for
    [years] are the first [years + 1] rows and entries of those for any
    [years' >= years]. *)
Theorem longer_horizon_extends_the_schedule
    (size price : Q) (years years' : Z) (cpw itc gen esc om : Q)
    (table table' : DataFrame) (series series' : list Q) :
  (years <= years')%Z ->
  build_cashflow_schedule size price years cpw itc gen esc om = Ok (table, series) ->
  build_cashflow_schedule size price years' cpw itc gen esc om
    = Ok (table', series') ->
  table = firstn (Z.to_nat years + 1) table' /\
  series = firstn (Z.to_nat years + 1) series'.
Proof.
  intros Hle Hb Hb'.
  destruct (longer_horizon_appends _ _ _ _ _ _ _ _ _ _ _ _ _ Hle Hb Hb')
    as (nr & nf & -> & ->).
  assert (Hs : series = map net_cashflow table).
  { apply build_cashflow_schedule_inv in Hb
      as (_ & _ & st & r0 & -> & -> & (_ & Hcf & _) & _). now rewrite Hcf. }
  apply schedule_facts in Hb as (_ & _ & _ & _ & Hlen & _).
  replace (Z.to_nat years + 1)%nat with (List.length table) by lia.
  split; [now rewrite firstn_own_length |].
  replace (List.length table) with (List.length series)
    by (rewrite Hs; apply length_map).
  now rewrite firstn_own_length.
Qed.

Lemma longer_horizon_extends_the_schedule_witness :
  exists table series table' series',
    build_default 10 0.20 8 = Ok (table, series) /\
    build_default 10 0.20 25 = Ok (table', series') /\
    table = firstn (Z.to_nat 8 + 1) table' /\
    series = firstn (Z.to_nat 8 + 1) series'.
Proof.
  do 4 eexists. split; [vm_compute; reflexivity |].
  split; [vm_compute; reflexivity |].
  eapply (longer_horizon_extends_the_schedule 10 0.20 8 25 CAPEX_PER_WATT
            ITC_RATE GEN_KWH_PER_KW_YEAR PRICE_ESCALATION OM_PER_KW_YEAR);
    [lia | vm_compute; reflexivity | vm_compute; reflexivity].
Defined.

Lemma first_non_negative_app (l l' : list CashFlowRow) (y : Z) :
  first_non_negative l = Some y -> first_non_negative (l ++ l') = Some y.
Proof.
  induction l as [| r l IH]; simpl; [discriminate |].
  destruct (Qleb 0 (cumulative_cashflow r)); [trivial | exact IH].
Qed.

(** X14: a payback year found within a horizon is the payback year of every
    longer horizon. *)
Theorem payback_year_survives_longer_horizons
    (size price : Q) (years years' : Z) (cpw itc gen esc om : Q)
    (table table' : DataFrame) (series series' : list Q) (Y : Z) :
  (years <= years')%Z ->
  build_cashflow_schedule size price years cpw itc gen esc om = Ok (table, series) ->
  build_cashflow_schedule size price years' cpw itc gen esc om
    = Ok (table', series') ->
  calc_payback_period_years table = Ok (Some Y) ->
  calc_payback_period_years table' = Ok (Some Y).
Proof.
  intros Hle Hb Hb' Hpb.
  destruct (longer_horizon_appends _ _ _ _ _ _ _ _ _ _ _ _ _ Hle Hb Hb')
    as (nr & nf & -> & _).
  destruct table as [| r0 rest]; [discriminate |].
  change ((r0 :: rest) ++ nr) with (r0 :: (rest ++ nr)).
  rewrite calc_payback_period_years_scan in Hpb |- *.
  f_equal. change (r0 :: rest ++ nr) with ((r0 :: rest) ++ nr).
  apply first_non_negative_app. congruence.
Qed.

Lemma payback_year_survives_longer_horizons_witness :
  exists table series table' series',
    build_default 10 0.20 8 = Ok (table, series) /\
    build_default 10 0.20 25 = Ok (table', series') /\
    calc_payback_period_years table = Ok (Some 7%Z) /\
    calc_payback_period_years table' = Ok (Some 7%Z).
Proof.
  do 4 eexists. split; [vm_compute; reflexivity |].
  split; [vm_compute; reflexivity |].
  split; [vm_compute; reflexivity |].
  eapply (payback_year_survives_longer_horizons 10 0.20 8 25 CAPEX_PER_WATT
            ITC_RATE GEN_KWH_PER_KW_YEAR PRICE_ESCALATION OM_PER_KW_YEAR);
    [lia | vm_compute; reflexivity | vm_compute; reflexivity
     | vm_compute; reflexivity].
Defined.

(** ** IRR and the entry point, further *)

(** X16: the IRR derivation returns a rate exactly when the series has at
    least 2 entries and the solver hands back a float, and then it is that
    float. *)
Theorem irr_is_the_solvers_float
    (npf_irr : list Q -> np_value) (cashflows : list Q) (x : Q) :
  calc_project_irr npf_irr cashflows = Some x <->
  (2 <= List.length cashflows)%nat /\ npf_irr cashflows = np_float x.
Proof.
  unfold calc_project_irr. split.
  - destruct cashflows as [| c0 [| c1 rest]]; simpl; try discriminate.
    destruct (npf_irr (c0 :: c1 :: rest)); try discriminate.
    intros [= ->]. split; [lia | reflexivity].
  - intros [Hlen Hx]. rewrite Hx.
    destruct cashflows as [| c0 [| c1 rest]]; simpl in *; [lia | lia | reflexivity].
Qed.

Section EntryPointFurther.

Variable npf_irr : list Q -> np_value.
Variable series_round : Z -> Q -> Q.

(** X17: for a horizon of at most 28745 years, up to which the power of the
    default escalation stays in the range of the floats, the entry point
    returns a result exactly when the state is found with a price > 0, the
    size is >= 0 and the horizon is > 0. *)
Theorem entry_point_returns_exactly_when
    (prices : PriceFrame) (state : string) (size : Q) (years : Z) :
  (years <= 28745)%Z ->
  ((exists res,
      run_solar_model npf_irr series_round prices state size years = Ok res)
   <->
   (exists base_price,
      get_electricity_price prices state = Ok base_price /\ 0 < base_price) /\
   0 <= size /\ (0 < years)%Z).
Proof.
  intros Hmax. split.
  - intros [res Hres].
    apply run_solar_model_inv in Hres
      as (p & table & series & Hp & _ & _ & Hb & _).
    apply returned_schedule_valid in Hb as (Hy & Hpos & Hs & _).
    split; [now exists p |]. split; assumption.
  - intros ([p [Hp Hpos]] & Hs & Hy).
    apply (run_solar_model_returns npf_irr series_round prices state size
             years p); [exact Hp | exact Hpos | exact Hs | lia].
Qed.

(** X18: the failures of the entry point.  A failed lookup comes out as it
    is, whatever the size and the horizon.  With the state found, the checks
    that can fail are, in this order, the horizon, the price of the table and
    the sign of the size; past them, a horizon of more than 28745 years ends
    in the OverflowError of the power.  No other exception leaves the entry
    point, and never an IndexError from the payback derivation. *)
Theorem entry_point_failures
    (prices : PriceFrame) (state : string) (size : Q) (years : Z) :
  (forall e, get_electricity_price prices state = Raise e ->
     run_solar_model npf_irr series_round prices state size years = Raise e) /\
  (forall p, get_electricity_price prices state = Ok p ->
     ((years <= 0)%Z ->
      run_solar_model npf_irr series_round prices state size years
        = Raise (ValueError "years must be > 0.")) /\
     ((0 < years)%Z -> p <= 0 ->
      run_solar_model npf_irr series_round prices state size years
        = Raise (ValueError "base_price_per_kwh must be > 0.")) /\
     ((0 < years)%Z -> 0 < p -> size < 0 ->
      run_solar_model npf_irr series_round prices state size years
        = Raise (ValueError "capex must be >= 0.")) /\
     ((28745 < years)%Z -> 0 < p -> 0 <= size ->
      run_solar_model npf_irr series_round prices state size years
        = Raise (OverflowError "(34, 'Numerical result out of range')"))) /\
  (forall e,
     run_solar_model npf_irr series_round prices state size years = Raise e ->
     get_electricity_price prices state = Raise e \/
     In e [ ValueError "years must be > 0.";
            ValueError "base_price_per_kwh must be > 0.";
            ValueError "capex must be >= 0.";
            OverflowError "(34, 'Numerical result out of range')" ]).
Proof.
  assert (Hrun : forall p, get_electricity_price prices state = Ok p ->
            run_solar_model npf_irr series_round prices state size years =
            ('(table, cashflows) <- build_default size p years ;;
             payback <- calc_payback_period_years table ;;
             Ok {| cashflow_table := map (display_row series_round) table;
                   upfront_cost := CAPEX_PER_WATT * (size * 1000);
                   annual_generation_kwh := size * GEN_KWH_PER_KW_YEAR;
                   irr := calc_project_irr npf_irr cashflows;
                   payback_years := payback |})).
  { intros p Hp. unfold run_solar_model. rewrite Hp. cbn [bind].
    rewrite calc_upfront_capex_ok by reflexivity. cbn [bind].
    rewrite calc_annual_generation_kwh_ok by reflexivity. reflexivity. }
  assert (Hdefaults : 0 < CAPEX_PER_WATT /\ 0 <= ITC_RATE <= 1 /\
                      0 < GEN_KWH_PER_KW_YEAR /\ 0 <= PRICE_ESCALATION /\
                      0 <= OM_PER_KW_YEAR).
  { repeat split; try reflexivity; discriminate. }
  destruct Hdefaults as (Dc & Di & Dg & De & Do).
  assert (Hyears : forall p, (years <= 0)%Z ->
            build_default size p years = Raise (ValueError "years must be > 0.")).
  { intros p Hy. unfold build_default, build_cashflow_schedule.
    pass_test (years <=? 0)%Z. reflexivity. }
  assert (Hprice : forall p, (0 < years)%Z -> p <= 0 ->
            build_default size p years
              = Raise (ValueError "base_price_per_kwh must be > 0.")).
  { intros p Hy Hp. unfold build_default, build_cashflow_schedule.
    fail_test (years <=? 0)%Z. pass_test (Qleb p 0). reflexivity. }
  assert (Hsize : forall p, (0 < years)%Z -> 0 < p -> size < 0 ->
            build_default size p years = Raise (ValueError "capex must be >= 0.")).
  { intros p Hy Hp Hs.
    unfold build_default, build_cashflow_schedule, calc_upfront_capex,
      calc_itc_value.
    fail_test (years <=? 0)%Z. fail_test (Qleb p 0).
    fail_test (Qleb CAPEX_PER_WATT 0). cbn [bind].
    pass_test (Qltb (CAPEX_PER_WATT * (size * 1000)) 0). reflexivity. }
  assert (Hover : forall p, (28745 < years)%Z -> 0 < p -> 0 <= size ->
            build_default size p years
              = Raise (OverflowError "(34, 'Numerical result out of range')")).
  { intros p Hy Hp Hs. unfold build_default.
    apply build_cashflow_schedule_overflows; try assumption; [lia |].
    apply default_factor_overflows. lia. }
  split; [| split].
  - intros e He. unfold run_solar_model. rewrite He. reflexivity.
  - intros p Hp. rewrite (Hrun p Hp).
    refine (conj _ (conj _ (conj _ _))); intros.
    + rewrite Hyears by assumption. reflexivity.
    + rewrite Hprice by assumption. reflexivity.
    + rewrite Hsize by assumption. reflexivity.
    + rewrite Hover by assumption. reflexivity.
  - intros e Hraise.
    destruct (get_electricity_price prices state) as [p | e0] eqn:Hp.
    2: { left. unfold run_solar_model in Hraise. rewrite Hp in Hraise.
         cbn [bind] in Hraise. congruence. }
    right. rewrite (Hrun p eq_refl) in Hraise.
    destruct (Z_le_gt_dec years 0) as [Hy | Hy].
    { rewrite Hyears in Hraise by exact Hy. injection Hraise as <-.
      simpl. tauto. }
    destruct (Qlt_le_dec 0 p) as [Hpos | Hneg].
    2: { rewrite Hprice in Hraise by (assumption || lia).
         injection Hraise as <-. simpl. tauto. }
    destruct (Qlt_le_dec size 0) as [Hs | Hs].
    { rewrite Hsize in Hraise by (assumption || lia).
      injection Hraise as <-. simpl. tauto. }
    destruct (Z_le_gt_dec years 28745) as [Hmax | Hmax].
    2: { rewrite Hover in Hraise by (assumption || lia).
         injection Hraise as <-. simpl. tauto. }
    exfalso.
    destruct (run_solar_model_returns npf_irr series_round prices state size
                years p Hp Hpos Hs ltac:(lia)) as [res Hres].
    rewrite (Hrun p eq_refl) in Hres. congruence.
Qed.

(** X19: in a result of the entry point, the length test of the IRR derivation
    never decides: the series has [years + 1 >= 2] entries, and the IRR of the
    result is a rate exactly when the solver finds a float for the net cash
    flows of the unrounded schedule. *)
Theorem entry_point_irr_is_the_solvers_verdict
    (prices : PriceFrame) (state : string) (size : Q) (years : Z)
    (res : ModelResult) :
  run_solar_model npf_irr series_round prices state size years = Ok res ->
  exists base_price table series,
    get_electricity_price prices state = Ok base_price /\
    build_default size base_price years = Ok (table, series) /\
    Z.of_nat (List.length series) = (years + 1)%Z /\
    (2 <= List.length series)%nat /\
    forall x, irr res = Some x <-> npf_irr series = np_float x.
Proof.
  intros Hres.
  apply run_solar_model_inv in Hres
    as (p & table & series & Hp & _ & _ & Hb & Hirr & _).
  exists p, table, series. split; [exact Hp |]. split; [exact Hb |].
  assert (Hlen : List.length series = S (Z.to_nat years) /\ (0 < years)%Z).
  { assert (Hb' := Hb).
    apply build_cashflow_schedule_inv in Hb
      as (Hy & _ & st & r0 & -> & -> & (Hlen & Hcf & _) & _).
    split; [| exact Hy]. now rewrite <- Hcf, length_map. }
  destruct Hlen as [Hlen Hy].
  split; [lia |]. split; [lia |].
  intros x. rewrite Hirr. unfold calc_project_irr.
  destruct series as [| c0 [| c1 rest]]; simpl in Hlen; try lia.
  simpl. destruct (npf_irr (c0 :: c1 :: rest)); split; congruence.
Qed.

(** X20: the headline figures of a result agree with its schedule: the
    upfront cost is 2.5 $ per watt times the watts of the size, the annual
    generation is the size times 1400 kWh, the row of every year from 1 on
    shows that generation and, as O&M cost, the size times 15 $, and row 0
    has no price. *)
Theorem headline_figures_agree_with_the_schedule
    (prices : PriceFrame) (state : string) (size : Q) (years : Z)
    (res : ModelResult) :
  run_solar_model npf_irr series_round prices state size years = Ok res ->
  upfront_cost res == 2.5 * (size * 1000) /\
  annual_generation_kwh res == size * 1400 /\
  (exists d0, nth_error (cashflow_table res) 0 = Some d0 /\
              year d0 = 0%Z /\ price_per_kwh d0 = None /\ generation_kwh d0 = 0) /\
  (forall t d, (1 <= t)%nat -> nth_error (cashflow_table res) t = Some d ->
     generation_kwh d = annual_generation_kwh res /\
     om_cost d == size * 15).
Proof.
  intros Hres.
  apply run_solar_model_inv in Hres
    as (p & table & series & _ & Hu & Hg & Hb & _ & _ & Htable).
  rewrite calc_upfront_capex_ok in Hu by reflexivity.
  rewrite calc_annual_generation_kwh_ok in Hg by reflexivity.
  injection Hu as Hu. injection Hg as Hg.
  split; [rewrite <- Hu; unfold CAPEX_PER_WATT; ring |].
  split; [rewrite <- Hg; unfold GEN_KWH_PER_KW_YEAR; ring |].
  assert (Hb' := Hb).
  apply build_cashflow_schedule_inv in Hb
    as (_ & _ & st & r0 & -> & _ & _ & Hhd & Hy0 & Hp0 & _).
  apply build_cashflow_schedule_loop in Hb'
    as (_ & _ & _ & _ & _ & _ & _ & st' & Hloop & Hrows & _).
  split.
  - exists (display_row series_round r0). rewrite Htable.
    destruct (rows st) as [| r rest] eqn:Er; [discriminate |].
    injection Hhd as ->. split; [reflexivity |].
    cbn [display_row year price_per_kwh generation_kwh].
    rewrite Hy0, Hp0. split; [reflexivity |]. split; [reflexivity |].
    assert (H0 : nth_error (rows st') 0 = Some r0) by (now rewrite <- Hrows).
    assert (Hrow0 : nth_error (rows st') 0
              = nth_error (rows (year0_state
                                   (CAPEX_PER_WATT * (size * 1000))
                                   (CAPEX_PER_WATT * (size * 1000) * ITC_RATE))) 0).
    { refine (for_each_invariant _
        (fun _ s => nth_error (rows s) 0
           = nth_error (rows (year0_state
                                (CAPEX_PER_WATT * (size * 1000))
                                (CAPEX_PER_WATT * (size * 1000) * ITC_RATE))) 0)
        _ _ st' _ _ Hloop); [| reflexivity].
      intros i y s s1 _ Hs Hbody.
      apply year_body_inv in Hbody as (pr & _ & ->). cbn [rows].
      rewrite <- Hs. destruct (rows s); [| reflexivity].
      simpl in Hs. discriminate. }
    rewrite H0 in Hrow0. simpl in Hrow0. injection Hrow0 as ->. reflexivity.
  - intros t d Ht Hd. rewrite Htable, nth_error_map in Hd.
    destruct (nth_error (rows st) t) as [r |] eqn:Er; [| discriminate].
    injection Hd as <-. rewrite Hrows in Er.
    destruct (loop_rows p PRICE_ESCALATION (size * GEN_KWH_PER_KW_YEAR)
                (size * OM_PER_KW_YEAR) years
                (year0_state (CAPEX_PER_WATT * (size * 1000))
                   (CAPEX_PER_WATT * (size * 1000) * ITC_RATE))
                st' eq_refl Hloop t r Ht Er)
      as (_ & _ & Hgen & Hom & _).
    cbn [display_row generation_kwh om_cost]. rewrite Hgen, Hom, <- Hg.
    split; [reflexivity | unfold OM_PER_KW_YEAR; ring].
Qed.

End EntryPointFurther.

Lemma entry_point_returns_exactly_when_witness :
  (25 <= 28745)%Z /\
  ((exists res,
      run_solar_model no_rate np_round sample_prices "Texas" 10 25 = Ok res)
   <->
   (exists base_price,
      get_electricity_price sample_prices "Texas" = Ok base_price /\
      0 < base_price) /\
   0 <= 10 /\ (0 < 25)%Z).
Proof.
  split; [lia |].
  apply (entry_point_returns_exactly_when no_rate np_round sample_prices
           "Texas" 10 25).
  lia.
Defined.

Lemma entry_point_failures_witness :
  run_solar_model no_rate np_round sample_prices "Atlantis" 10 25
    = Raise (ValueError "State 'Atlantis' not found in price table") /\
  run_solar_model no_rate np_round sample_prices "Texas" 10 0
    = Raise (ValueError "years must be > 0.") /\
  run_solar_model no_rate np_round
    (load_price_frame {| pf_columns := ["state"; "cost_per_kWh"]%string;
                         pf_records := [("Utopia"%string, 0)] |}) "Utopia" 10 25
    = Raise (ValueError "base_price_per_kwh must be > 0.") /\
  run_solar_model no_rate np_round sample_prices "Texas" (-1) 25
    = Raise (ValueError "capex must be >= 0.") /\
  run_solar_model no_rate np_round sample_prices "Texas" 10 28746
    = Raise (OverflowError "(34, 'Numerical result out of range')").
Proof.
  refine (conj _ (conj _ (conj _ (conj _ _)))).
  - apply (proj1 (entry_point_failures no_rate np_round sample_prices
                    "Atlantis" 10 25)).
    vm_compute. reflexivity.
  - apply (proj1 (proj1 (proj2 (entry_point_failures no_rate np_round
                    sample_prices "Texas" 10 0)) 0.12 eq_refl)).
    lia.
  - apply (proj1 (proj2 (proj1 (proj2 (entry_point_failures no_rate np_round
                    (load_price_frame
                       {| pf_columns := ["state"; "cost_per_kWh"]%string;
                          pf_records := [("Utopia"%string, 0)] |})
                    "Utopia" 10 25)) 0 eq_refl)));
      [lia | discriminate].
  - apply (proj1 (proj2 (proj2 (proj1 (proj2 (entry_point_failures no_rate
                    np_round sample_prices "Texas" (-1) 25)) 0.12 eq_refl))));
      [lia | reflexivity | reflexivity].
  - apply (proj2 (proj2 (proj2 (proj1 (proj2 (entry_point_failures no_rate
                    np_round sample_prices "Texas" 10 28746)) 0.12 eq_refl))));
      [lia | reflexivity | discriminate].
Defined.

Lemma entry_point_irr_is_the_solvers_verdict_witness :
  exists res base_price table series,
    run_solar_model (fun _ => np_float 0.1) np_round sample_prices "Texas" 10 8
      = Ok res /\
    get_electricity_price sample_prices "Texas" = Ok base_price /\
    build_default 10 base_price 8 = Ok (table, series) /\
    Z.of_nat (List.length series) = (8 + 1)%Z /\
    (2 <= List.length series)%nat /\
    forall x, irr res = Some x <-> (fun _ : list Q => np_float 0.1) series = np_float x.
Proof.
  eexists.
  assert (Hrun : run_solar_model (fun _ => np_float 0.1) np_round sample_prices
                   "Texas" 10 8 = Ok _) by (vm_compute; reflexivity).
  destruct (entry_point_irr_is_the_solvers_verdict _ _ _ _ _ _ _ Hrun)
    as (p & table & series & H).
  exists p, table, series. split; [exact Hrun | exact H].
Defined.

Lemma headline_figures_agree_with_the_schedule_witness :
  exists res,
    run_solar_model no_rate np_round sample_prices "Texas" 10 8 = Ok res /\
    upfront_cost res == 2.5 * (10 * 1000) /\
    annual_generation_kwh res == 10 * 1400 /\
    (exists d0, nth_error (cashflow_table res) 0 = Some d0 /\
                year d0 = 0%Z /\ price_per_kwh d0 = None /\
                generation_kwh d0 = 0) /\
    (forall t d, (1 <= t)%nat -> nth_error (cashflow_table res) t = Some d ->
       generation_kwh d = annual_generation_kwh res /\
       om_cost d == 10 * 15).
Proof.
  eexists. split; [vm_compute; reflexivity |].
  eapply (headline_figures_agree_with_the_schedule no_rate np_round sample_prices
            "Texas" 10 8).
  vm_compute. reflexivity.
Defined.

(** ** The dashboard's inputs *)

Lemma unique_In (l : list string) (s : string) : In s (unique l) <-> In s l.
Proof.
  induction l as [| x rest IH]; simpl; [tauto |].
  rewrite filter_In, IH. split.
  - intros [-> | [H _]]; [now left | now right].
  - intros [-> | H]; [now left |].
    destruct (String.eqb_spec x s) as [-> | Hne]; [now left |].
    right. split; [exact H |].
    destruct (String.eqb_spec x s); [contradiction | reflexivity].
Qed.

Lemma unique_NoDup (l : list string) : NoDup (unique l).
Proof.
  induction l as [| x rest IH]; simpl; constructor.
  - rewrite filter_In. intros [_ H].
    now rewrite String.eqb_refl in H.
  - now apply NoDup_filter.
Qed.

(** X21: the states of the dropdown.  Without a state column the loader
    raises; with one it returns the state names of the CSV, each once, in
    ascending order. *)
Theorem load_states_sorted_without_duplicates (csv : PriceFrame) :
  (has_column csv "state" = false ->
   load_states csv
     = Raise (ValueError "energy_prices.csv must include a 'state' column")) /\
  (has_column csv "state" = true ->
   exists states,
     load_states csv = Ok states /\
     Sorted (fun a b => String.leb a b = true) states /\
     NoDup states /\
     (forall s, In s states <-> In s (map fst (pf_records csv)))).
Proof.
  unfold load_states. split; intros H; rewrite H; [reflexivity |].
  cbn [negb]. eexists. split; [reflexivity |].
  pose proof (StringSort.Permuted_sort (unique (map fst (pf_records csv)))) as HP.
  split; [apply StringSort.Sorted_sort |]. split.
  - apply (Permutation_NoDup HP), unique_NoDup.
  - intros s. rewrite <- (unique_In (map fst (pf_records csv))). split.
    + apply (Permutation_in s (Permutation_sym HP)).
    + apply (Permutation_in s HP).
Qed.

Lemma load_states_sorted_without_duplicates_witness :
  load_states {| pf_columns := ["cost_per_kWh"%string]; pf_records := [] |}
    = Raise (ValueError "energy_prices.csv must include a 'state' column") /\
  exists states,
    load_states {| pf_columns := ["state"; "cost_per_kWh"]%string;
                   pf_records := [("Texas"%string, 0.12);
                                  ("California"%string, 0.20);
                                  ("Texas"%string, 0.13)] |} = Ok states /\
    Sorted (fun a b => String.leb a b = true) states /\
    NoDup states /\
    (forall s, In s states <->
               In s ["Texas"%string; "California"%string; "Texas"%string]).
Proof.
  split.
  - apply (proj1 (load_states_sorted_without_duplicates _)). reflexivity.
  - apply (proj2 (load_states_sorted_without_duplicates
                    {| pf_columns := ["state"; "cost_per_kWh"]%string;
                       pf_records := [("Texas"%string, 0.12);
                                      ("California"%string, 0.20);
                                      ("Texas"%string, 0.13)] |})).
    reflexivity.
Defined.

(** The dropdown of the witness. *)
Example load_states_example :
  load_states {| pf_columns := ["state"; "cost_per_kWh"]%string;
                 pf_records := [("Texas"%string, 0.12);
                                ("California"%string, 0.20);
                                ("Texas"%string, 0.13)] |}
  = Ok ["California"%string; "Texas"%string].
Proof. vm_compute. reflexivity. Qed.

(** A state of the CSV is found in the loaded frame. *)
Lemma csv_state_is_found (csv : PriceFrame) (s : string) :
  In s (map fst (pf_records csv)) ->
  exists cost s',
    first_match (lower s)
      (map (fun r => (lower (fst r), snd r)) (pf_records csv)) = Some cost /\
    In (s', cost) (pf_records csv) /\ lower s' = lower s.
Proof.
  intros Hin.
  destruct (first_match (lower s) _) as [cost |] eqn:E.
  - exists cost.
    apply first_match_some in E as (before' & after' & Hsplit & _).
    apply map_lower_split in Hsplit as (before & s' & after & Hrec & Hs & _).
    exists s'. split; [reflexivity |]. split; [| exact Hs].
    rewrite Hrec. apply in_or_app. right. now left.
  - exfalso. apply in_map_iff in Hin as ([s0 c] & <- & Hr).
    rewrite first_match_none in E.
    apply (E (lower s0, c)); [| reflexivity].
    apply (in_map (fun r => (lower (fst r), snd r)) _ _ Hr).
Qed.

(** X22: every state the dropdown offers is found by the price lookup, under
    whatever case the CSV writes it: the lookup returns the price of a record
    whose state equals the offered one up to case. *)
Theorem offered_states_are_found
    (csv : PriceFrame) (states : list string) (s : string) :
  load_states csv = Ok states ->
  has_column csv "cost_per_kWh" = true ->
  In s states ->
  exists cost s',
    get_electricity_price (load_price_frame csv) s = Ok cost /\
    In (s', cost) (pf_records csv) /\ lower s' = lower s.
Proof.
  unfold load_states. intros Hload Hcost Hin.
  destruct (has_column csv "state") eqn:Hstate; cbn [negb] in Hload;
    [| discriminate].
  injection Hload as <-.
  apply (Permutation_in _ (Permutation_sym (StringSort.Permuted_sort _))) in Hin.
  apply (proj1 (unique_In _ _)) in Hin.
  destruct (csv_state_is_found csv s Hin) as (cost & s' & Hfirst & Hrec & Hs).
  exists cost, s'. split; [| split; assumption].
  rewrite get_electricity_price_loaded, Hstate, Hcost. cbn [andb negb].
  now rewrite Hfirst.
Qed.

Lemma offered_states_are_found_witness :
  exists cost s',
    get_electricity_price
      (load_price_frame {| pf_columns := ["state"; "cost_per_kWh"]%string;
                           pf_records := [("Texas"%string, 0.12);
                                          ("California"%string, 0.20)] |})
      "Texas" = Ok cost /\
    In (s', cost) [("Texas"%string, 0.12); ("California"%string, 0.20)] /\
    lower s' = lower "Texas".
Proof.
  apply (offered_states_are_found
           {| pf_columns := ["state"; "cost_per_kWh"]%string;
              pf_records := [("Texas"%string, 0.12);
                             ("California"%string, 0.20)] |}
           ["California"%string; "Texas"%string] "Texas");
    [vm_compute; reflexivity | reflexivity | right; left; reflexivity].
Defined.

(** X23: what the dashboard can submit always runs.  With a CSV whose prices
    are all > 0, a state of the dropdown, a size within the bounds of the size
    input and a horizon within the bounds of the slider, the entry point
    returns a result: the upfront cost is > 0 and the table has between 5 + 1
    and 25 + 1 rows. *)
Theorem dashboard_inputs_always_run
    (npf_irr : list Q -> np_value) (series_round : Z -> Q -> Q)
    (csv : PriceFrame) (states : list string)
    (state : string) (size : Q) (years : Z) :
  load_states csv = Ok states ->
  has_column csv "cost_per_kWh" = true ->
  (forall r, In r (pf_records csv) -> 0 < snd r) ->
  widget_values states state size years = true ->
  exists res,
    run_solar_model npf_irr series_round (load_price_frame csv) state size years
      = Ok res /\
    0 < upfront_cost res /\
    (YEARS_MIN_VALUE + 1 <= Z.of_nat (List.length (cashflow_table res))
       <= PROJECT_YEARS + 1)%Z.
Proof.
  intros Hload Hcost Hpos Hw.
  unfold widget_values in Hw.
  repeat (apply andb_prop in Hw as [Hw ?]).
  apply existsb_exists in Hw as (s0 & Hin & Heq).
  apply String.eqb_eq in Heq. subst s0. order_facts.
  unfold load_states in Hload.
  destruct (has_column csv "state") eqn:Hstate; cbn [negb] in Hload;
    [| discriminate].
  injection Hload as <-.
  apply (Permutation_in _ (Permutation_sym (StringSort.Permuted_sort _))) in Hin.
  apply (proj1 (unique_In _ _)) in Hin.
  destruct (csv_state_is_found csv state Hin) as (cost & s' & Hfirst & Hrec & _).
  assert (Hprice : get_electricity_price (load_price_frame csv) state = Ok cost).
  { rewrite get_electricity_price_loaded, Hstate, Hcost. cbn [andb negb].
    now rewrite Hfirst. }
  assert (Hc : 0 < cost) by (apply (Hpos (s', cost) Hrec)).
  assert (Hsize : 0 < size) by (unfold SIZE_MIN_VALUE in *; lra).
  assert (Hyears : (5 <= years <= 25)%Z)
    by (unfold YEARS_MIN_VALUE, YEARS_MAX_VALUE, PROJECT_YEARS in *; lia).
  destruct (run_solar_model_returns npf_irr series_round (load_price_frame csv)
              state size years cost Hprice Hc ltac:(lra) ltac:(lia))
    as [res Hres].
  exists res. split; [exact Hres |].
  apply run_solar_model_inv in Hres
    as (p & table & series & _ & Hu & _ & Hb & _ & _ & Htable).
  rewrite calc_upfront_capex_ok in Hu by reflexivity. injection Hu as Hu.
  split; [rewrite <- Hu; unfold CAPEX_PER_WATT; nra |].
  apply build_cashflow_schedule_inv in Hb
    as (_ & _ & st & r0 & -> & _ & (Hlen & _) & _).
  rewrite Htable, length_map, Hlen.
  unfold YEARS_MIN_VALUE, PROJECT_YEARS. lia.
Qed.

Lemma dashboard_inputs_always_run_witness :
  exists res,
    run_solar_model no_rate np_round
      (load_price_frame {| pf_columns := ["state"; "cost_per_kWh"]%string;
                           pf_records := [("Texas"%string, 0.12);
                                          ("California"%string, 0.20)] |})
      "California" 0.1 5 = Ok res /\
    0 < upfront_cost res /\
    (YEARS_MIN_VALUE + 1 <= Z.of_nat (List.length (cashflow_table res))
       <= PROJECT_YEARS + 1)%Z.
Proof.
  apply (dashboard_inputs_always_run no_rate np_round
           {| pf_columns := ["state"; "cost_per_kWh"]%string;
              pf_records := [("Texas"%string, 0.12);
                             ("California"%string, 0.20)] |}
           ["California"%string; "Texas"%string] "California" 0.1 5).
  - vm_compute. reflexivity.
  - reflexivity.
  - intros r [<- | [<- | []]]; reflexivity.
  - vm_compute. reflexivity.
Defined.
